(** * Batch deletion of Tekton resources: [tkn task delete] and
      [tkn triggertemplate delete]

    A shallow embedding of [deleteTask] (pkg/cmd/task/delete.go) and of
    [deleteTriggerTemplates] (pkg/cmd/triggertemplate/delete.go), and the
    properties of the partial-failure-tolerant batch they implement.

    The cluster behind the client set is an arbitrary state type; every
    client call takes the cluster and gives back its result and the cluster
    after the call.  The calls a run makes are logged, with their results, in
    a ghost field of the state, so that "was attempted" and "was never
    invoked" are statements about that log. *)

From Stdlib Require Import String Ascii List Bool Arith Lia.
Import ListNotations.
Open Scope string_scope.

Set Implicit Arguments.
Local Set Warnings "-register-all".

(** The line feed that ends every line written. *)
Definition newline : string := String (ascii_of_nat 10) EmptyString.

(** ** Go values *)

(** A non-nil Go [error].  [Errorf] stands for any error that carries a
    message ([fmt.Errorf], [errors.New], the errors of the API machinery);
    [multiError] is the aggregate of go.uber.org/multierr.  A possibly-nil
    [error] is an [option error], [None] being [nil]. *)
Inductive error : Type :=
| Errorf (msg : string)
| multiError (errors : list error).

(** [err.Error()]: multierr joins the messages of its members with "; ". *)
Fixpoint Error (err : error) : string :=
  match err with
  | Errorf msg => msg
  | multiError errors => String.concat "; " (map Error errors)
  end.

(** [multierr.Combine(errs...)] on a slice without nil entries: nil for the
    empty slice, the error itself for a single one, otherwise one flat
    [multiError] (aggregates among the arguments are spliced in). *)
Definition Combine (errors : list error) : option error :=
  match errors with
  | [] => None
  | [err] => Some err
  | _ =>
      Some (multiError
              (flat_map (fun err => match err with
                                    | multiError nested => nested
                                    | _ => [err]
                                    end) errors))
  end.

(** [cli.Stream]: what has been written to [Out] and to [Err], one entry per
    [fmt.Fprintf] call, oldest first. *)
Record Stream : Type := mkStream {
  Out : list string;
  Err : list string
}.

(** [options.DeleteOptions], the fields [deleteTask] reads or the command
    sets. *)
Record DeleteOptions : Type := mkDeleteOptions {
  Resource : string;
  ForceDelete : bool;
  DeleteAll : bool
}.

(** [metav1.ListOptions], the one field set here. *)
Record ListOptions : Type := mkListOptions {
  LabelSelector : string
}.

(** A TaskRun as far as [deleteTask] looks at it, and [TaskRunList]. *)
Record TaskRun : Type := mkTaskRun {
  Name : string
}.

Record TaskRunList : Type := mkTaskRunList {
  Items : list TaskRun
}.

(** One call to the remote store with the result it gave: the namespace, the
    argument, and the returned error ([None] is nil) or list. *)
Inductive Event : Type :=
| TasksDelete (ns name : string) (res : option error)
| TaskRunsList (ns : string) (lOpts : ListOptions) (res : TaskRunList + error)
| TaskRunsDelete (ns name : string) (res : option error)
| TriggerTemplatesDelete (ns name : string) (res : option error).

Section Delete.

(** The state of the remote store. *)
Variable Cluster : Type.

(** The [%q] verb of Go's fmt ([strconv.Quote]). *)
Variable Sprintf_q : string -> string.

(** The quoting of one name inside [names.QuotedList]. *)
Variable quoteName : string -> string.

(** [cli.Clients]: the calls the two commands make,
    [cs.Tekton.TektonV1alpha1().Tasks(ns).Delete(name, ...)],
    [....TaskRuns(ns).List(lOpts)], [....TaskRuns(ns).Delete(name, ...)]
    and [cs.Triggers.TektonV1alpha1().TriggerTemplates(ns).Delete(name, ...)].
    The [metav1.DeleteOptions] are always empty and left out. *)
Record Clients : Type := mkClients {
  Tasks_Delete : string -> string -> Cluster -> option error * Cluster;
  TaskRuns_List :
    string -> ListOptions -> Cluster -> (TaskRunList + error) * Cluster;
  TaskRuns_Delete : string -> string -> Cluster -> option error * Cluster;
  TriggerTemplates_Delete :
    string -> string -> Cluster -> option error * Cluster
}.

(** [cli.Params]: [p.Clients()] gives the client set or an error,
    [p.Namespace()] the namespace. *)
Record Params : Type := mkParams {
  GetClients : Clients + error;
  Namespace : string
}.

(** *** pkg/cmd/task/delete.go *)

(** The locals of [deleteTask] together with the world it acts on: the
    cluster, the stream [s], and the log of the calls made so far. *)
Record State : Type := mkState {
  cluster : Cluster;
  stream : Stream;
  calls : list Event;
  errs : list error;
  successfulTasks : list string;
  successfulTaskRuns : list string
}.

Definition Fprintf_Out (line : string) (st : State) : State :=
  mkState (cluster st)
          (mkStream (Out (stream st) ++ [line]) (Err (stream st)))
          (calls st) (errs st) (successfulTasks st) (successfulTaskRuns st).

Definition Fprintf_Err (line : string) (st : State) : State :=
  mkState (cluster st)
          (mkStream (Out (stream st)) (Err (stream st) ++ [line]))
          (calls st) (errs st) (successfulTasks st) (successfulTaskRuns st).

(** The closure [addPrintErr]:
    [errs = append(errs, err); fmt.Fprintf(s.Err, "%s\n", err)]. *)
Definition addPrintErr (err : error) (st : State) : State :=
  Fprintf_Err (Error err ++ newline)
    (mkState (cluster st) (stream st) (calls st)
             (errs st ++ [err]) (successfulTasks st) (successfulTaskRuns st)).

Definition append_successfulTasks (tName : string) (st : State) : State :=
  mkState (cluster st) (stream st) (calls st) (errs st)
          (successfulTasks st ++ [tName]) (successfulTaskRuns st).

Definition append_successfulTaskRuns (trName : string) (st : State) : State :=
  mkState (cluster st) (stream st) (calls st) (errs st)
          (successfulTasks st) (successfulTaskRuns st ++ [trName]).

(** A client call: run it on the cluster, keep the cluster it leaves, log
    the call with its result. *)
Definition called (ev : Event) (c : Cluster) (st : State) : State :=
  mkState c (stream st) (calls st ++ [ev])
          (errs st) (successfulTasks st) (successfulTaskRuns st).

Definition call_Tasks_Delete (cs : Clients) (ns name : string) (st : State)
  : option error * State :=
  let (res, c) := Tasks_Delete cs ns name (cluster st) in
  (res, called (TasksDelete ns name res) c st).

Definition call_TaskRuns_List (cs : Clients) (ns : string)
           (lOpts : ListOptions) (st : State)
  : (TaskRunList + error) * State :=
  let (res, c) := TaskRuns_List cs ns lOpts (cluster st) in
  (res, called (TaskRunsList ns lOpts res) c st).

Definition call_TaskRuns_Delete (cs : Clients) (ns name : string)
           (st : State) : option error * State :=
  let (res, c) := TaskRuns_Delete cs ns name (cluster st) in
  (res, called (TaskRunsDelete ns name res) c st).

(** The body of [for _, tr := range taskRuns.Items]. *)
Definition deleteTask_taskRun (cs : Clients) (ns : string)
           (st : State) (tr : TaskRun) : State :=
  match call_TaskRuns_Delete cs ns (Name tr) st with
  | (Some err, st1) =>
      addPrintErr
        (Errorf ("failed to delete taskrun " ++ Sprintf_q (Name tr)
                 ++ ": " ++ Error err)) st1
  | (None, st1) => append_successfulTaskRuns (Name tr) st1
  end.

(** The body of [for _, tName := range tNames]. *)
Definition deleteTask_task (opts : DeleteOptions) (cs : Clients)
           (ns : string) (st : State) (tName : string) : State :=
  match call_Tasks_Delete cs ns tName st with
  | (Some err, st1) =>
      addPrintErr
        (Errorf ("failed to delete task " ++ Sprintf_q tName
                 ++ ": " ++ Error err)) st1
  | (None, st1) =>
      let st2 := append_successfulTasks tName st1 in
      if negb (DeleteAll opts) then st2
      else
        let lOpts := mkListOptions ("tekton.dev/task=" ++ tName) in
        match call_TaskRuns_List cs ns lOpts st2 with
        | (inr err, st3) => addPrintErr err st3
        | (inl taskRuns, st3) =>
            fold_left (deleteTask_taskRun cs ns) (Items taskRuns) st3
        end
  end.

(** Modelled from the spec: [names.QuotedList] (pkg/helper/names) is not
    among the sources.  The spec has each name quoted on its own and the
    quoted names joined by a comma; its examples read ['a', 'b'].  How one
    name is quoted is the argument [quote]. *)
Definition QuotedList (quote : string -> string) (names : list string)
  : string :=
  String.concat ", " (map quote names).

(** The two conditional success lines that end [deleteTask]. *)
Definition deleteTask_report (st : State) : State :=
  let st1 :=
    if (0 <? length (successfulTaskRuns st))%nat
    then Fprintf_Out ("TaskRuns deleted: "
                      ++ QuotedList quoteName (successfulTaskRuns st) ++ newline) st
    else st in
  if (0 <? length (successfulTasks st1))%nat
  then Fprintf_Out ("Tasks deleted: "
                    ++ QuotedList quoteName (successfulTasks st1) ++ newline) st1
  else st1.

(** [deleteTask(opts, s, p, tNames)], run on the cluster [c].  The result
    is the returned error and the state at the return; when [p.Clients()]
    fails no local has been touched and nothing has been called or
    written. *)
Definition deleteTask (opts : DeleteOptions) (s : Stream) (p : Params)
           (tNames : list string) (c : Cluster) : option error * State :=
  let st0 := mkState c s [] [] [] [] in
  match GetClients p with
  | inr _ => (Some (Errorf "failed to create tekton client"), st0)
  | inl cs =>
      let st1 :=
        fold_left (deleteTask_task opts cs (Namespace p)) tNames st0 in
      let st2 := deleteTask_report st1 in
      (Combine (errs st2), st2)
  end.

(** *** pkg/cmd/triggertemplate/delete.go *)

(** The locals [errs] and [success] of [deleteTriggerTemplates] and the
    world it acts on. *)
Record TTState : Type := mkTTState {
  tt_cluster : Cluster;
  tt_stream : Stream;
  tt_calls : list Event;
  tt_errs : list error;
  tt_success : list string
}.

(** The body of [for _, ttName := range ttNames]. *)
Definition deleteTriggerTemplates_one (cs : Clients) (ns : string)
           (st : TTState) (ttName : string) : TTState :=
  let (res, c) := TriggerTemplates_Delete cs ns ttName (tt_cluster st) in
  let log := (tt_calls st ++ [TriggerTemplatesDelete ns ttName res])%list in
  match res with
  | Some err0 =>
      let err :=
        Errorf ("failed to delete triggertemplate " ++ Sprintf_q ttName
                ++ ": " ++ Error err0) in
      mkTTState c
                (mkStream (Out (tt_stream st))
                          (Err (tt_stream st) ++ [Error err ++ newline]))
                log (tt_errs st ++ [err]) (tt_success st)
  | None =>
      mkTTState c (tt_stream st) log (tt_errs st) (tt_success st ++ [ttName])
  end.

(** [deleteTriggerTemplates(s, p, ttNames)], run on the cluster [c]. *)
Definition deleteTriggerTemplates (s : Stream) (p : Params)
           (ttNames : list string) (c : Cluster) : option error * TTState :=
  let st0 := mkTTState c s [] [] [] in
  match GetClients p with
  | inr _ => (Some (Errorf "failed to create tekton client"), st0)
  | inl cs =>
      let st1 :=
        fold_left (deleteTriggerTemplates_one cs (Namespace p)) ttNames st0 in
      let st2 :=
        if (0 <? length (tt_success st1))%nat
        then mkTTState (tt_cluster st1)
                       (mkStream
                          (Out (tt_stream st1)
                           ++ ["TriggerTemplates deleted: "
                               ++ QuotedList quoteName (tt_success st1)
                               ++ newline])
                          (Err (tt_stream st1)))
                       (tt_calls st1) (tt_errs st1) (tt_success st1)
        else st1 in
      (Combine (tt_errs st2), st2)
  end.

(** *** Reading the log of calls *)

(** Whether a call came back without an error. *)
Definition succeeded (ev : Event) : bool :=
  match ev with
  | TasksDelete _ _ None | TaskRunsDelete _ _ None
  | TriggerTemplatesDelete _ _ None | TaskRunsList _ _ (inl _) => true
  | _ => false
  end.

(** The failure entry the commands record for a call: none for a call that
    succeeded, the wrapped error for a failed delete, the error of the
    store as it is for a failed list. *)
Definition recorded (ev : Event) : list error :=
  match ev with
  | TasksDelete _ name (Some err) =>
      [Errorf ("failed to delete task " ++ Sprintf_q name
               ++ ": " ++ Error err)]
  | TaskRunsDelete _ name (Some err) =>
      [Errorf ("failed to delete taskrun " ++ Sprintf_q name
               ++ ": " ++ Error err)]
  | TriggerTemplatesDelete _ name (Some err) =>
      [Errorf ("failed to delete triggertemplate " ++ Sprintf_q name
               ++ ": " ++ Error err)]
  | TaskRunsList _ _ (inr err) => [err]
  | _ => []
  end.

(** The names of the Tasks a log tried to delete, and of the Tasks and
    TaskRuns it deleted, call by call. *)
Definition attemptedTask (ev : Event) : list string :=
  match ev with
  | TasksDelete _ name _ => [name]
  | _ => []
  end.

Definition deletedTask (ev : Event) : list string :=
  match ev with
  | TasksDelete _ name None => [name]
  | _ => []
  end.

Definition deletedTaskRun (ev : Event) : list string :=
  match ev with
  | TaskRunsDelete _ name None => [name]
  | _ => []
  end.

(** Whether a call is about the dependents: a list or a delete of
    TaskRuns. *)
Definition dependentCall (ev : Event) : bool :=
  match ev with
  | TaskRunsList _ _ _ | TaskRunsDelete _ _ _ => true
  | _ => false
  end.

(** The line [addPrintErr] writes for a failure entry. *)
Definition errLine (err : error) : string := Error err ++ newline.

(** The calls one round of the outer loop makes for the Task [tName]: the
    delete alone when it fails or when [DeleteAll] is off; otherwise the
    delete, the list of the TaskRuns labelled with the Task, and, when the
    list came back, one delete per item in the order of the list. *)
Inductive taskRound (ns : string) (deleteAll : bool) (tName : string)
  : list Event -> Prop :=
| round_failed (err : error) :
    taskRound ns deleteAll tName [TasksDelete ns tName (Some err)]
| round_plain :
    deleteAll = false ->
    taskRound ns deleteAll tName [TasksDelete ns tName None]
| round_list_failed (err : error) :
    deleteAll = true ->
    taskRound ns deleteAll tName
      [TasksDelete ns tName None;
       TaskRunsList ns (mkListOptions ("tekton.dev/task=" ++ tName))
                    (inr err)]
| round_cascade (taskRuns : TaskRunList) (dels : list Event) :
    deleteAll = true ->
    Forall2 (fun tr ev => exists res, ev = TaskRunsDelete ns (Name tr) res)
            (Items taskRuns) dels ->
    taskRound ns deleteAll tName
      (TasksDelete ns tName None
       :: TaskRunsList ns (mkListOptions ("tekton.dev/task=" ++ tName))
                       (inl taskRuns)
       :: dels).

(** [st'] is [st] after the calls [evs] and the bookkeeping of the loops
    for them: the log grew by [evs], [errs] by the failure entries of
    [evs], the two lists of successes by the names [evs] deleted, [s.Err]
    by one line per failure entry, and [s.Out] not at all. *)
Record follows (st st' : State) (evs : list Event) : Prop := mkFollows {
  follows_calls : calls st' = (calls st ++ evs)%list;
  follows_errs : errs st' = (errs st ++ flat_map recorded evs)%list;
  follows_tasks :
    successfulTasks st'
    = (successfulTasks st ++ flat_map deletedTask evs)%list;
  follows_runs :
    successfulTaskRuns st'
    = (successfulTaskRuns st ++ flat_map deletedTaskRun evs)%list;
  follows_Out : Out (stream st') = Out (stream st);
  follows_Err :
    Err (stream st')
    = (Err (stream st) ++ map errLine (flat_map recorded evs))%list
}.

(** The success lines for the recorded TaskRuns and Tasks: the TaskRuns
    line first, then the Tasks line, each only when its list has a name. *)
Definition successLines (taskRuns tasks : list string) : list string :=
  let taskRunsLine :=
    match taskRuns with
    | [] => []
    | _ => ["TaskRuns deleted: "
            ++ String.concat ", " (map quoteName taskRuns) ++ newline]
    end in
  let tasksLine :=
    match tasks with
    | [] => []
    | _ => ["Tasks deleted: "
            ++ String.concat ", " (map quoteName tasks) ++ newline]
    end in
  (taskRunsLine ++ tasksLine)%list.

End Delete.

(** ** Concrete pieces to run the commands on *)

Definition dquote : string := String (ascii_of_nat 34) EmptyString.
Definition backslash : string := String (ascii_of_nat 92) EmptyString.

Definition lowerhex (n : nat) : string :=
  String (nth n (list_ascii_of_string "0123456789abcdef") "0"%char) EmptyString.

(** [strconv.Quote] on ASCII text: the text in double quotes, with the
    double quote, the backslash and the control characters escaped as Go
    does.  Bytes above 0x7f are copied, which is what Go does for the UTF-8
    encoding of a printable character. *)
Definition quoteByte (c : ascii) : string :=
  let n := nat_of_ascii c in
  if (n =? 34)%nat then backslash ++ dquote
  else if (n =? 92)%nat then backslash ++ backslash
  else if (n =? 7)%nat then backslash ++ "a"
  else if (n =? 8)%nat then backslash ++ "b"
  else if (n =? 12)%nat then backslash ++ "f"
  else if (n =? 10)%nat then backslash ++ "n"
  else if (n =? 13)%nat then backslash ++ "r"
  else if (n =? 9)%nat then backslash ++ "t"
  else if (n =? 11)%nat then backslash ++ "v"
  else if ((n <? 32) || (n =? 127))%nat
       then backslash ++ "x" ++ lowerhex (n / 16) ++ lowerhex (n mod 16)
  else String c EmptyString.

Definition quoteASCII (s : string) : string :=
  dquote ++ String.concat "" (map quoteByte (list_ascii_of_string s)) ++ dquote.

(** The quoting in the examples of the specification: ['a']. *)
Definition singleQuoted (s : string) : string := "'" ++ s ++ "'".

(** A client set without a state, for examples: deleting a Task named in
    [missing] or a TaskRun named in [stuck] fails with a not-found error,
    every other delete succeeds, and listing answers [runsOf] of the label
    selector. *)
Definition notFound (resource name : string) : error :=
  Errorf (resource ++ " " ++ dquote ++ name ++ dquote ++ " not found").

Definition inNames (name : string) (names : list string) : bool :=
  existsb (String.eqb name) names.

Definition fakeClients (missing : list string)
           (runsOf : string -> TaskRunList + error) (stuck : list string)
  : Clients unit :=
  mkClients
    (fun _ name c =>
       (if inNames name missing
        then Some (notFound "tasks.tekton.dev" name) else None, c))
    (fun _ lOpts c => (runsOf (LabelSelector lOpts), c))
    (fun _ name c =>
       (if inNames name stuck
        then Some (notFound "taskruns.tekton.dev" name) else None, c))
    (fun _ name c =>
       (if inNames name missing
        then Some (notFound "triggertemplates.tekton.dev" name) else None, c)).

(** No TaskRun carries any label. *)
Definition noRuns (selector : string) : TaskRunList + error :=
  inl (mkTaskRunList []).

(** The TaskRuns of the Task [tName] are [names]; no other Task has any. *)
Definition runsFor (tName : string) (names : list string) (selector : string)
  : TaskRunList + error :=
  if String.eqb selector ("tekton.dev/task=" ++ tName)
  then inl (mkTaskRunList (map mkTaskRun names))
  else inl (mkTaskRunList []).

(** Listing TaskRuns is refused. *)
Definition listForbidden (selector : string) : TaskRunList + error :=
  inr (Errorf "taskruns.tekton.dev is forbidden").

(** A stream nothing was written to, and the options of the command with
    and without [--all]. *)
Definition emptyStream : Stream := mkStream [] [].
Definition optsPlain : DeleteOptions := mkDeleteOptions "task" false false.
Definition optsAll : DeleteOptions := mkDeleteOptions "task" false true.

(** Whether the message [msg] contains [name]. *)
Definition mentions (name msg : string) : bool :=
  match String.index 0 name msg with
  | Some _ => true
  | None => false
  end.

(** The attribution the specification asks of the failure entry of a failed
    lookup: the entry refers to the primary it was made for, here by naming
    it in its message. *)
Definition attributedTo (tName : string) (err : error) : bool :=
  mentions tName (Error err).

(** The form the specification gives every failure line:
    [failed to delete <kind> %q: <underlying error>]. *)
Definition deleteFailureLine (q : string -> string) (line : string) : Prop :=
  exists kind name cause,
    line = "failed to delete " ++ kind ++ " " ++ q name ++ ": " ++ cause
           ++ newline.

(** ** The commands around the two functions *)

(** The namespace a call was made in. *)
Definition eventNamespace (ev : Event) : string :=
  match ev with
  | TasksDelete ns _ _ | TaskRunsList ns _ _
  | TaskRunsDelete ns _ _ | TriggerTemplatesDelete ns _ _ => ns
  end.

(** Whether a call is a list of TaskRuns, and whether it is a Task delete
    that failed. *)
Definition listCall (ev : Event) : bool :=
  match ev with
  | TaskRunsList _ _ _ => true
  | _ => false
  end.

Definition failedTaskDelete (ev : Event) : bool :=
  match ev with
  | TasksDelete _ _ (Some _) => true
  | _ => false
  end.

(** The names of the TriggerTemplates a call deleted. *)
Definition deletedTriggerTemplate (ev : Event) : list string :=
  match ev with
  | TriggerTemplatesDelete _ name None => [name]
  | _ => []
  end.

(** The TriggerTemplate deletes of [names] in [ns], in order, with the
    results [results]. *)
Definition triggerTemplateDeletes (ns : string) (names : list string)
           (results : list (option error)) : list Event :=
  map (fun nr => TriggerTemplatesDelete ns (fst nr) (snd nr))
      (combine names results).

(** The success line of [deleteTriggerTemplates], when a name was
    deleted. *)
Definition triggerTemplatesLine (quoteName : string -> string)
           (success : list string) : list string :=
  match success with
  | [] => []
  | _ => ["TriggerTemplates deleted: "
          ++ String.concat ", " (map quoteName success) ++ newline]
  end.

Section Commands.

Variable Cluster : Type.
Variables Sprintf_q quoteName : string -> string.

(** [validate.NamespaceExists(p)] (pkg/helper/validate) and
    [opts.CheckOptions(s, args)] (pkg/helper/options) are not among the
    sources and are taken as they are called: the first asks the store and
    gives an error or nil, the second may prompt on the stream and gives an
    error or nil. *)
Variable NamespaceExists : Params Cluster -> Cluster -> option error * Cluster.
Variable CheckOptions :
  DeleteOptions -> Stream -> list string -> option error * Stream.

(** The [RunE] of [deleteCommand] in pkg/cmd/task/delete.go, with the
    values [force] and [all] of the flags [--force] and [--all] in [opts]
    and the stream [s] of the command. *)
Definition task_RunE (force all : bool) (p : Params Cluster)
           (args : list string) (s : Stream) (c : Cluster)
  : option error * State Cluster :=
  let opts := mkDeleteOptions "task" force all in
  match NamespaceExists p c with
  | (Some err, c1) => (Some err, mkState c1 s [] [] [] [])
  | (None, c1) =>
      match CheckOptions opts s args with
      | (Some err, s1) => (Some err, mkState c1 s1 [] [] [] [])
      | (None, s1) => deleteTask Sprintf_q quoteName opts s1 p args c1
      end
  end.

(** The [RunE] of [deleteCommand] in pkg/cmd/triggertemplate/delete.go;
    the command has no [--all], so [DeleteAll] stays false. *)
Definition triggertemplate_RunE (force : bool) (p : Params Cluster)
           (args : list string) (s : Stream) (c : Cluster)
  : option error * TTState Cluster :=
  let opts := mkDeleteOptions "triggertemplate" force false in
  match NamespaceExists p c with
  | (Some err, c1) => (Some err, mkTTState c1 s [] [] [])
  | (None, c1) =>
      match CheckOptions opts s args with
      | (Some err, s1) => (Some err, mkTTState c1 s1 [] [] [])
      | (None, s1) =>
          deleteTriggerTemplates Sprintf_q quoteName s1 p args c1
      end
  end.

(** The client set whose Task delete is the TriggerTemplate delete of
    [cs]. *)
Definition triggerTemplatesAsTasks (cs : Clients Cluster) : Clients Cluster :=
  mkClients (TriggerTemplates_Delete cs) (TaskRuns_List cs)
            (TaskRuns_Delete cs) (TriggerTemplates_Delete cs).

(** [st'] is the state of [deleteTriggerTemplates] after the calls [evs]
    from [st]. *)
Definition tt_follows (st st' : TTState Cluster) (evs : list Event) : Prop :=
  tt_calls st' = (tt_calls st ++ evs)%list
  /\ tt_errs st' = (tt_errs st ++ flat_map (recorded Sprintf_q) evs)%list
  /\ tt_success st'
     = (tt_success st ++ flat_map deletedTriggerTemplate evs)%list
  /\ Out (tt_stream st') = Out (tt_stream st)
  /\ Err (tt_stream st')
     = (Err (tt_stream st)
        ++ map errLine (flat_map (recorded Sprintf_q) evs))%list.

End Commands.

(** Checks that pass, a namespace that is missing, and a user who answers
    no, for examples. *)
Definition namespaceFound (p : Params unit) (c : unit) : option error * unit :=
  (None, c).

Definition namespaceMissing (p : Params unit) (c : unit)
  : option error * unit :=
  (Some (notFound "namespaces" (Namespace p)), c).

Definition confirmed (opts : DeleteOptions) (s : Stream) (names : list string)
  : option error * Stream :=
  (None, s).

Definition declined (opts : DeleteOptions) (s : Stream) (names : list string)
  : option error * Stream :=
  (Some (Errorf ("canceled deleting " ++ Resource opts)),
   mkStream (Out s ++ ["Are you sure you want to delete (y/n): "]) (Err s)).

(** ** Properties *)

Section Properties.

Variable Cluster : Type.
Variables Sprintf_q quoteName : string -> string.

Local Open Scope list_scope.

Local Abbreviation State := (State Cluster).
Local Abbreviation Clients := (Clients Cluster).
Local Abbreviation Params := (Params Cluster).
Local Abbreviation follows := (@follows Cluster Sprintf_q).
Local Abbreviation recorded := (recorded Sprintf_q).
Local Abbreviation deleteTask_taskRun := (@deleteTask_taskRun Cluster Sprintf_q).
Local Abbreviation deleteTask_task := (@deleteTask_task Cluster Sprintf_q).
Local Abbreviation deleteTask := (@deleteTask Cluster Sprintf_q quoteName).
Local Abbreviation deleteTriggerTemplates :=
  (@deleteTriggerTemplates Cluster Sprintf_q quoteName).

(** *** The aggregate error *)

Lemma Combine_nil_iff (errors : list error) :
  Combine errors = None <-> errors = [].
Proof.
  destruct errors as [|e [|e' rest]]; simpl; split; intros H;
    try reflexivity; discriminate H.
Qed.

Lemma recorded_nil_iff (ev : Event) :
  recorded ev = [] <-> succeeded ev = true.
Proof.
  destruct ev as [ns n [e|] | ns lo [l|e] | ns n [e|] | ns n [e|]];
    simpl; split; intros H; try reflexivity; discriminate H.
Qed.

Lemma recorded_all_nil_iff (evs : list Event) :
  flat_map recorded evs = [] <-> forallb succeeded evs = true.
Proof.
  induction evs as [|ev evs IH]; simpl.
  - split; reflexivity.
  - rewrite andb_true_iff, <- IH, <- recorded_nil_iff.
    split.
    + intros H. apply app_eq_nil in H. exact H.
    + intros [H1 H2]. rewrite H1, H2. reflexivity.
Qed.

Lemma recorded_count (evs : list Event) :
  length (flat_map recorded evs)
  = length (filter (fun ev => negb (succeeded ev)) evs).
Proof.
  induction evs as [|ev evs IH]; simpl; [reflexivity|].
  rewrite length_app, IH.
  destruct ev as [ns n [e|] | ns lo [l|e] | ns n [e|] | ns n [e|]];
    reflexivity.
Qed.

(** *** The loops, call by call *)

Lemma follows_refl (st : State) : follows st st [].
Proof.
  constructor; simpl; rewrite <- ?app_assoc, ?app_nil_r; reflexivity.
Qed.

Lemma follows_trans (st1 st2 st3 : State) (evs1 evs2 : list Event) :
  follows st1 st2 evs1 -> follows st2 st3 evs2 ->
  follows st1 st3 (evs1 ++ evs2).
Proof.
  intros [C1 E1 T1 R1 O1 L1] [C2 E2 T2 R2 O2 L2].
  constructor; rewrite ?flat_map_app, ?map_app, ?app_assoc; congruence.
Qed.

Lemma taskRun_follows (cs : Clients) (ns : string) (st : State)
      (tr : TaskRun) :
  follows st (deleteTask_taskRun cs ns st tr)
          [TaskRunsDelete ns (Name tr)
             (fst (TaskRuns_Delete cs ns (Name tr) (cluster st)))].
Proof.
  unfold deleteTask_taskRun, call_TaskRuns_Delete.
  destruct (TaskRuns_Delete cs ns (Name tr) (cluster st)) as [[err|] c'];
    simpl; constructor; simpl; rewrite <- ?app_assoc, ?app_nil_r; reflexivity.
Qed.

Lemma taskRuns_follows (cs : Clients) (ns : string) (items : list TaskRun) :
  forall st : State,
  exists dels,
    follows st (fold_left (deleteTask_taskRun cs ns) items st) dels
    /\ Forall2 (fun tr ev => exists res, ev = TaskRunsDelete ns (Name tr) res)
               items dels.
Proof.
  induction items as [|tr items IH]; intros st; simpl.
  - exists []. split; [apply follows_refl | constructor].
  - destruct (IH (deleteTask_taskRun cs ns st tr)) as [dels [Hf Hd]].
    eexists (_ :: dels). split.
    + apply (follows_trans (taskRun_follows cs ns st tr) Hf).
    + constructor; [eexists; reflexivity | exact Hd].
Qed.

Lemma task_follows (opts : DeleteOptions) (cs : Clients) (ns : string)
      (st : State) (tName : string) :
  exists evs,
    follows st (deleteTask_task opts cs ns st tName) evs
    /\ taskRound ns (DeleteAll opts) tName evs.
Proof.
  unfold deleteTask_task, call_Tasks_Delete.
  destruct (Tasks_Delete cs ns tName (cluster st)) as [[err|] c1].
  - eexists. split; [|apply round_failed].
    constructor; simpl; rewrite <- ?app_assoc, ?app_nil_r; reflexivity.
  - destruct (DeleteAll opts) eqn:Hall; simpl negb; cbv iota.
    + unfold call_TaskRuns_List.
      match goal with
      | |- context [TaskRuns_List cs ns ?lo ?cl] =>
          destruct (TaskRuns_List cs ns lo cl) as [[taskRuns|err] c2]
      end.
      * match goal with
        | |- context [fold_left _ _ ?st3] =>
            destruct (taskRuns_follows cs ns (Items taskRuns) st3)
              as [dels [Hf Hd]]
        end.
        eexists. split; [|apply (round_cascade _ _ eq_refl Hd)].
        refine (follows_trans (evs1 := [_; _]) _ Hf).
        constructor; simpl; rewrite <- ?app_assoc, ?app_nil_r; reflexivity.
      * eexists. split; [|apply (round_list_failed _ _ err eq_refl)].
        constructor; simpl; rewrite <- ?app_assoc, ?app_nil_r; reflexivity.
    + eexists. split; [|apply (round_plain _ _ eq_refl)].
      constructor; simpl; rewrite <- ?app_assoc, ?app_nil_r; reflexivity.
Qed.

Lemma tasks_follows (opts : DeleteOptions) (cs : Clients) (ns : string)
      (tNames : list string) :
  forall st : State,
  exists rounds,
    follows st (fold_left (deleteTask_task opts cs ns) tNames st)
            (concat rounds)
    /\ Forall2 (taskRound ns (DeleteAll opts)) tNames rounds.
Proof.
  induction tNames as [|tName tNames IH]; intros st; simpl.
  - exists []. split; [apply follows_refl | constructor].
  - destruct (task_follows opts cs ns st tName) as [evs [Hf Hr]].
    destruct (IH (deleteTask_task opts cs ns st tName))
      as [rounds [Hfs Hrs]].
    exists (evs :: rounds). split.
    + simpl. apply (follows_trans Hf Hfs).
    + constructor; assumption.
Qed.

(** *** The whole of [deleteTask] *)

Lemma report_keeps (st : State) :
  let st' := deleteTask_report quoteName st in
  cluster st' = cluster st
  /\ calls st' = calls st
  /\ errs st' = errs st
  /\ successfulTasks st' = successfulTasks st
  /\ successfulTaskRuns st' = successfulTaskRuns st
  /\ Err (stream st') = Err (stream st)
  /\ Out (stream st')
     = Out (stream st)
       ++ successLines quoteName (successfulTaskRuns st) (successfulTasks st).
Proof.
  destruct st as [c s log es tasks runs].
  unfold deleteTask_report, successLines, QuotedList.
  destruct runs, tasks; simpl;
    rewrite <- ?app_assoc, ?app_nil_r; repeat split; reflexivity.
Qed.

Lemma deleteTask_without_clients (opts : DeleteOptions) (s : Stream)
      (p : Params) (tNames : list string) (c : Cluster) (cause : error) :
  GetClients p = inr cause ->
  deleteTask opts s p tNames c
  = (Some (Errorf "failed to create tekton client"), mkState c s [] [] [] []).
Proof.
  intros H. unfold deleteTask. rewrite H. reflexivity.
Qed.

Lemma deleteTask_run (opts : DeleteOptions) (s : Stream) (p : Params)
      (cs : Clients) (tNames : list string) (c : Cluster) :
  GetClients p = inl cs ->
  exists rounds,
    let res := deleteTask opts s p tNames c in
    let st := snd res in
    Forall2 (taskRound (Namespace p) (DeleteAll opts)) tNames rounds
    /\ calls st = concat rounds
    /\ errs st = flat_map recorded (calls st)
    /\ successfulTasks st = flat_map deletedTask (calls st)
    /\ successfulTaskRuns st = flat_map deletedTaskRun (calls st)
    /\ Err (stream st) = Err s ++ map errLine (errs st)
    /\ Out (stream st)
       = Out s ++ successLines quoteName (successfulTaskRuns st)
                               (successfulTasks st)
    /\ fst res = Combine (errs st).
Proof.
  intros H. unfold deleteTask. rewrite H.
  destruct (tasks_follows opts cs (Namespace p) tNames
                          (mkState c s [] [] [] []))
    as [rounds [[C E T R O L] Hr]].
  exists rounds. cbv zeta. simpl fst; simpl snd.
  match goal with
  | |- context [deleteTask_report quoteName ?st1] =>
      destruct (report_keeps st1) as (_ & K2 & K3 & K4 & K5 & K6 & K7)
  end.
  simpl in C, E, T, R, O, L.
  rewrite K2, K3, K4, K5, K6, K7, C, E, T, R, O, L.
  repeat split; try reflexivity; assumption.
Qed.

(** *** A store on which only Task deletes fail *)

Section OnlyTaskDeletesFail.

Variable opts : DeleteOptions.
Variable cs : Clients.
Variable ns : string.
Variable fails : string -> bool.

Hypothesis dependents_fine :
  DeleteAll opts = true ->
  forall (arg : string) (lOpts : ListOptions) (c : Cluster),
    (exists taskRuns, fst (TaskRuns_List cs ns lOpts c) = inl taskRuns)
    /\ fst (TaskRuns_Delete cs ns arg c) = None.

Lemma taskRuns_quiet (Hall : DeleteAll opts = true) (items : list TaskRun) :
  forall st : State,
    let st' := fold_left (deleteTask_taskRun cs ns) items st in
    errs st' = errs st
    /\ successfulTasks st' = successfulTasks st
    /\ flat_map attemptedTask (calls st') = flat_map attemptedTask (calls st).
Proof.
  induction items as [|tr items IH]; intros st; simpl.
  - repeat split.
  - destruct (IH (deleteTask_taskRun cs ns st tr)) as (E & T & A).
    rewrite E, T, A.
    unfold deleteTask_taskRun, call_TaskRuns_Delete.
    destruct (dependents_fine Hall (Name tr) (mkListOptions "") (cluster st))
      as [_ Hok].
    destruct (TaskRuns_Delete cs ns (Name tr) (cluster st)) as [[err|] c'];
      simpl in Hok; [discriminate Hok|].
    simpl. rewrite flat_map_app. simpl. rewrite app_nil_r. repeat split.
Qed.

Lemma task_step (st : State) (tName : string) :
  (fst (Tasks_Delete cs ns tName (cluster st)) <> None <-> fails tName = true) ->
  let st' := deleteTask_task opts cs ns st tName in
  length (errs st') = length (errs st) + length (filter fails [tName])
  /\ successfulTasks st'
     = successfulTasks st ++ filter (fun name => negb (fails name)) [tName]
  /\ flat_map attemptedTask (calls st')
     = flat_map attemptedTask (calls st) ++ [tName].
Proof.
  intros Hdel. unfold deleteTask_task, call_Tasks_Delete.
  destruct (Tasks_Delete cs ns tName (cluster st)) as [[err|] c1];
    simpl in Hdel.
  - assert (Hf : fails tName = true) by (apply Hdel; discriminate).
    simpl. rewrite Hf. simpl.
    rewrite length_app, flat_map_app, app_nil_r. repeat split.
  - assert (Hf : fails tName = false).
    { destruct (fails tName); [|reflexivity].
      exfalso. apply (proj2 Hdel); reflexivity. }
    simpl filter. rewrite Hf. simpl negb. cbv iota.
    case_eq (DeleteAll opts); intros Hall; simpl negb; cbv iota.
    + unfold call_TaskRuns_List.
      match goal with
      | |- context [TaskRuns_List cs ns ?lo ?cl] =>
          destruct (dependents_fine Hall "" lo cl) as [[l Hl] _];
          destruct (TaskRuns_List cs ns lo cl) as [[taskRuns|err] c2];
          simpl in Hl; [|discriminate Hl]
      end.
      match goal with
      | |- context [fold_left _ _ ?st3] =>
          destruct (taskRuns_quiet Hall (Items taskRuns) st3) as (E & T & A)
      end.
      cbv zeta. rewrite E, T, A. simpl.
      rewrite !flat_map_app. simpl.
      rewrite !app_nil_r, Nat.add_0_r. repeat split.
    + simpl. rewrite flat_map_app, Nat.add_0_r. repeat split.
Qed.

Lemma tasks_steps (tNames : list string) :
  forall st : State,
    (forall (name : string) (c : Cluster),
        In name tNames ->
        fst (Tasks_Delete cs ns name c) <> None <-> fails name = true) ->
    let st' := fold_left (deleteTask_task opts cs ns) tNames st in
    length (errs st') = length (errs st) + length (filter fails tNames)
    /\ successfulTasks st'
       = successfulTasks st ++ filter (fun name => negb (fails name)) tNames
    /\ flat_map attemptedTask (calls st')
       = flat_map attemptedTask (calls st) ++ tNames.
Proof.
  induction tNames as [|tName tNames IH]; intros st Hdel; simpl fold_left.
  - simpl. rewrite !app_nil_r, Nat.add_0_r. repeat split.
  - destruct (task_step st (Hdel tName (cluster st) (or_introl eq_refl)))
      as (E1 & T1 & A1).
    destruct (IH (deleteTask_task opts cs ns st tName)) as (E & T & A).
    { intros name c Hin. apply Hdel. right. exact Hin. }
    cbv zeta. rewrite E, T, A, E1, T1, A1.
    change (tName :: tNames) with ([tName] ++ tNames).
    rewrite !filter_app, length_app, <- !app_assoc, Nat.add_assoc.
    repeat split.
Qed.

End OnlyTaskDeletesFail.

(** *** What a log of rounds says *)

Lemma deleted_recorded (evs : list Event) (ns name : string) :
  In (TasksDelete ns name None) evs -> In name (flat_map deletedTask evs).
Proof.
  intros Hin. apply in_flat_map.
  exists (TasksDelete ns name None). split; [exact Hin | left; reflexivity].
Qed.

Lemma round_starts (ns : string) (deleteAll : bool) (tName : string)
      (round : list Event) :
  taskRound ns deleteAll tName round ->
  exists res rest, round = TasksDelete ns tName res :: rest.
Proof.
  intros [err | _ | err _ | taskRuns dels _ _]; eauto.
Qed.

Lemma round_dependents (ns : string) (deleteAll : bool) (tName : string)
      (round : list Event) :
  taskRound ns deleteAll tName round ->
  existsb dependentCall round = true ->
  deleteAll = true /\ exists rest, round = TasksDelete ns tName None :: rest.
Proof.
  intros [err | Hall | err Hall | taskRuns dels Hall _] Hdep;
    simpl in Hdep; try discriminate Hdep; split; eauto.
Qed.

Lemma rounds_without_cascade (ns : string) (tNames : list string)
      (rounds : list (list Event)) :
  Forall2 (taskRound ns false) tNames rounds ->
  existsb dependentCall (concat rounds) = false.
Proof.
  induction 1 as [|tName round tNames rounds Hr _ IH]; simpl.
  - reflexivity.
  - rewrite existsb_app, IH, orb_false_r.
    destruct (existsb dependentCall round) eqn:Hdep; [|reflexivity].
    destruct (round_dependents Hr Hdep) as [Hall _]. discriminate Hall.
Qed.

(** *** The claims *)

(** C1.  When the Task delete fails exactly for the names that [fails] marks
    and every other call of the run succeeds, [deleteTask] records as many
    failure entries as there are marked names in [tNames], [successfulTasks]
    is [tNames] without the marked names, in the original order, and the
    Task deletes attempted are those of all of [tNames], in order: no name
    after a failing one is skipped.  The marked names need be neither a
    proper nor a non-empty part of [tNames]. *)
Theorem deleteTask_partial_failure (opts : DeleteOptions) (s : Stream)
        (p : Params) (cs : Clients) (tNames : list string) (c : Cluster)
        (fails : string -> bool) :
  GetClients p = inl cs ->
  (forall (name : string) (c' : Cluster),
      In name tNames ->
      fst (Tasks_Delete cs (Namespace p) name c') <> None
      <-> fails name = true) ->
  (DeleteAll opts = true ->
   forall (arg : string) (lOpts : ListOptions) (c' : Cluster),
     (exists taskRuns,
         fst (TaskRuns_List cs (Namespace p) lOpts c') = inl taskRuns)
     /\ fst (TaskRuns_Delete cs (Namespace p) arg c') = None) ->
  let st := snd (deleteTask opts s p tNames c) in
  length (errs st) = length (filter fails tNames)
  /\ successfulTasks st = filter (fun name => negb (fails name)) tNames
  /\ flat_map attemptedTask (calls st) = tNames.
Proof.
  intros Hcs Hdel Hdep. unfold deleteTask. rewrite Hcs.
  cbv zeta. simpl snd.
  match goal with
  | |- context [deleteTask_report quoteName ?st1] =>
      destruct (report_keeps st1) as (_ & K2 & K3 & K4 & _)
  end.
  rewrite K2, K3, K4.
  destruct (tasks_steps opts cs (Namespace p) fails Hdep tNames
                        (mkState c s [] [] [] []) Hdel) as (E & T & A).
  exact (conj E (conj T A)).
Qed.

(** C2.  When the client set was obtained, the error [deleteTask] returns,
    [multierr.Combine(errs...)], is nil exactly when every call of the run,
    delete or list, succeeded; and it is non-nil exactly when at least one
    failure entry was recorded. *)
Theorem combined_error_nil_iff (opts : DeleteOptions) (s : Stream)
        (p : Params) (cs : Clients) (tNames : list string) (c : Cluster) :
  GetClients p = inl cs ->
  let res := deleteTask opts s p tNames c in
  (fst res = None <-> forallb succeeded (calls (snd res)) = true)
  /\ (fst res <> None <-> errs (snd res) <> []).
Proof.
  intros Hcs.
  destruct (@deleteTask_run opts s p cs tNames c Hcs)
    as (rounds & _ & _ & E & _ & _ & _ & _ & Hret).
  cbv zeta in *. rewrite Hret. split.
  - rewrite Combine_nil_iff, E. apply recorded_all_nil_iff.
  - rewrite Combine_nil_iff. reflexivity.
Qed.

(** C3.  When the client set was obtained, the calls of a run are the rounds
    of the names of [tNames], one after the other; a round that lists or
    deletes TaskRuns belongs to a run with [DeleteAll] and starts with the
    successful delete of its Task.  And every Task whose delete succeeded is
    in [successfulTasks] at the return, whatever the calls after it gave, a
    failed list of its TaskRuns included. *)
Theorem dependents_only_after_successful_delete
        (opts : DeleteOptions) (s : Stream) (p : Params) (cs : Clients)
        (tNames : list string) (c : Cluster) :
  GetClients p = inl cs ->
  let st := snd (deleteTask opts s p tNames c) in
  (exists rounds,
      calls st = concat rounds
      /\ Forall2
           (fun tName round =>
              taskRound (Namespace p) (DeleteAll opts) tName round
              /\ (existsb dependentCall round = true ->
                  DeleteAll opts = true
                  /\ exists rest,
                      round = TasksDelete (Namespace p) tName None :: rest))
           tNames rounds)
  /\ (forall ns tName,
         In (TasksDelete ns tName None) (calls st) ->
         In tName (successfulTasks st)).
Proof.
  intros Hcs.
  destruct (@deleteTask_run opts s p cs tNames c Hcs)
    as (rounds & Hr & C & _ & T & _).
  cbv zeta in *. split.
  - exists rounds. split; [exact C|].
    clear C T. induction Hr as [|tName round tNames' rounds' Hround _ IH];
      constructor; [|exact IH].
    split; [exact Hround | apply (round_dependents Hround)].
  - intros ns tName Hin. rewrite T. apply (deleted_recorded _ _ _ Hin).
Qed.

(** C4.  Without [DeleteAll], no call of the run is a list or a delete of
    TaskRuns, whatever the Task deletes gave and whatever the store holds. *)
Theorem no_cascade_no_list (opts : DeleteOptions) (s : Stream) (p : Params)
        (tNames : list string) (c : Cluster) :
  DeleteAll opts = false ->
  let st := snd (deleteTask opts s p tNames c) in
  (forall ns lOpts res, ~ In (TaskRunsList ns lOpts res) (calls st))
  /\ (forall ns name res, ~ In (TaskRunsDelete ns name res) (calls st)).
Proof.
  intros Hall. cbv zeta.
  assert (Hnone : existsb dependentCall
                          (calls (snd (deleteTask opts s p tNames c)))
                  = false).
  { destruct (GetClients p) as [cs|cause] eqn:Hcs.
    - destruct (@deleteTask_run opts s p cs tNames c Hcs)
        as (rounds & Hr & C & _).
      cbv zeta in *. rewrite C. rewrite Hall in Hr.
      apply (rounds_without_cascade Hr).
    - rewrite (@deleteTask_without_clients opts s p tNames c cause Hcs).
      reflexivity. }
  split; intros; intros Hin;
    (assert (Hsome : existsb dependentCall
                             (calls (snd (deleteTask opts s p tNames c)))
                     = true)
      by (apply existsb_exists; eexists; split; [exact Hin | reflexivity]));
    rewrite Hnone in Hsome; discriminate Hsome.
Qed.

(** C5, as the code has it.  When the delete of the Task [tName] succeeded
    and the list of its TaskRuns failed with [err], [tName] is in
    [successfulTasks] at the return, and the failure entries are those of
    the calls before, then the one entry [err], the error of the list call
    as the store gave it, then those of the calls after. *)
Theorem list_failure_recorded_as_is (opts : DeleteOptions) (s : Stream)
        (p : Params) (tNames : list string) (c : Cluster)
        (pre post : list Event) (ns tName : string) (lOpts : ListOptions)
        (err : error) :
  let st := snd (deleteTask opts s p tNames c) in
  calls st
  = pre ++ TasksDelete ns tName None
        :: TaskRunsList ns lOpts (inr err) :: post ->
  In tName (successfulTasks st)
  /\ errs st = flat_map recorded pre ++ [err] ++ flat_map recorded post.
Proof.
  cbv zeta. intros Hcalls.
  destruct (GetClients p) as [cs|cause] eqn:Hcs.
  - destruct (@deleteTask_run opts s p cs tNames c Hcs)
      as (rounds & _ & _ & E & T & _).
    cbv zeta in *. rewrite E, T, Hcalls. split.
    + apply (@deleted_recorded _ ns). apply in_elt.
    + rewrite flat_map_app. reflexivity.
  - rewrite (@deleteTask_without_clients opts s p tNames c cause Hcs)
      in Hcalls.
    simpl in Hcalls. destruct pre; discriminate Hcalls.
Qed.

(** C6.  [deleteTask] appends to [s.Out] the success lines of its two
    lists and nothing else: the line of the TaskRuns first, when one was
    deleted, then the line of the Tasks, when one was deleted, at most two
    lines in all.  Each line holds the names of its list, each quoted on its
    own, joined by a comma and a space; and the lists hold the names in the
    order in which the deletes succeeded. *)
Theorem success_report (opts : DeleteOptions) (s : Stream) (p : Params)
        (tNames : list string) (c : Cluster) :
  let st := snd (deleteTask opts s p tNames c) in
  Out (stream st)
  = Out s ++ successLines quoteName (successfulTaskRuns st)
                          (successfulTasks st)
  /\ successfulTaskRuns st = flat_map deletedTaskRun (calls st)
  /\ successfulTasks st = flat_map deletedTask (calls st)
  /\ length (successLines quoteName (successfulTaskRuns st)
                          (successfulTasks st)) <= 2.
Proof.
  cbv zeta. split; [|split; [|split]].
  4: { unfold successLines.
       destruct (successfulTaskRuns _), (successfulTasks _); simpl; lia. }
  all: destruct (GetClients p) as [cs|cause] eqn:Hcs;
    [ destruct (@deleteTask_run opts s p cs tNames c Hcs)
        as (rounds & _ & _ & _ & T & R & _ & O & _); assumption
    | rewrite (@deleteTask_without_clients opts s p tNames c cause Hcs);
      simpl; rewrite ?app_nil_r; reflexivity ].
Qed.

(** C7, as the code has it.  [deleteTask] appends to [s.Err] one line per
    failed call, in the order of the calls, and nothing else.  The line of a
    failed delete is [failed to delete task %q: %s] or
    [failed to delete taskrun %q: %s] with the name and the error of the
    store; the line of a failed list is the error of the store alone. *)
Theorem failure_lines (opts : DeleteOptions) (s : Stream) (p : Params)
        (tNames : list string) (c : Cluster) :
  let st := snd (deleteTask opts s p tNames c) in
  Err (stream st) = Err s ++ map errLine (flat_map recorded (calls st))
  /\ length (flat_map recorded (calls st))
     = length (filter (fun ev => negb (succeeded ev)) (calls st))
  /\ (forall ns name err,
         map errLine (recorded (TasksDelete ns name (Some err)))
         = [(("failed to delete task " ++ Sprintf_q name ++ ": "
              ++ Error err) ++ newline)%string]
         /\ map errLine (recorded (TaskRunsDelete ns name (Some err)))
            = [(("failed to delete taskrun " ++ Sprintf_q name ++ ": "
                 ++ Error err) ++ newline)%string])
  /\ (forall ns lOpts err,
         map errLine (recorded (TaskRunsList ns lOpts (inr err)))
         = [(Error err ++ newline)%string]).
Proof.
  cbv zeta. split; [|split; [apply recorded_count | split; repeat split]].
  destruct (GetClients p) as [cs|cause] eqn:Hcs.
  - destruct (@deleteTask_run opts s p cs tNames c Hcs)
      as (rounds & _ & _ & E & _ & _ & L & _).
    cbv zeta in *. rewrite L, E. reflexivity.
  - rewrite (@deleteTask_without_clients opts s p tNames c cause Hcs).
    simpl. rewrite app_nil_r. reflexivity.
Qed.

(** C8.  When [p.Clients()] fails, [deleteTask] returns an error at once:
    no call was made to the store, which is as it was, no outcome was
    recorded, and nothing was written to [s.Out] or [s.Err]. *)
Theorem clients_failure_aborts (opts : DeleteOptions) (s : Stream)
        (p : Params) (tNames : list string) (c : Cluster) (cause : error) :
  GetClients p = inr cause ->
  let res := deleteTask opts s p tNames c in
  fst res <> None
  /\ calls (snd res) = []
  /\ cluster (snd res) = c
  /\ errs (snd res) = []
  /\ successfulTasks (snd res) = []
  /\ successfulTaskRuns (snd res) = []
  /\ stream (snd res) = s.
Proof.
  intros Hcs. cbv zeta.
  rewrite (deleteTask_without_clients opts s p tNames c Hcs). simpl.
  repeat split. discriminate.
Qed.

(** C9.  When [p.Clients()] fails, with whatever cause, both [deleteTask]
    and [deleteTriggerTemplates] return the error whose message is
    [failed to create tekton client], and write nothing: the cause is in
    neither the returned error nor the stream. *)
Theorem clients_failure_message (opts : DeleteOptions) (s : Stream)
        (p : Params) (names : list string) (c : Cluster) (cause : error) :
  GetClients p = inr cause ->
  fst (deleteTask opts s p names c)
  = Some (Errorf "failed to create tekton client")
  /\ stream (snd (deleteTask opts s p names c)) = s
  /\ fst (deleteTriggerTemplates s p names c)
     = Some (Errorf "failed to create tekton client")
  /\ tt_stream (snd (deleteTriggerTemplates s p names c)) = s.
Proof.
  intros Hcs.
  unfold deleteTask, deleteTriggerTemplates.
  rewrite Hcs. simpl. repeat split.
Qed.

(** C10.  With the client set obtained and no name given, [deleteTask]
    calls nothing, writes nothing and returns nil. *)
Theorem empty_batch (opts : DeleteOptions) (s : Stream) (p : Params)
        (cs : Clients) (c : Cluster) :
  GetClients p = inl cs ->
  deleteTask opts s p [] c = (None, mkState c s [] [] [] []).
Proof.
  intros Hcs. unfold deleteTask. rewrite Hcs. reflexivity.
Qed.

End Properties.

(** ** The commands on concrete stores *)

(** The namespace and the parameters of the examples. *)
Definition quux (cs : Clients unit) : Params unit := mkParams (inl cs) "quux".

Definition noClients : Params unit :=
  mkParams (inr (Errorf "invalid configuration: no configuration has been provided"))
           "quux".

(** Three Tasks, the second of them missing, the first with one TaskRun. *)
Lemma deleteTask_partial_failure_witness :
  let st :=
    snd (deleteTask quoteASCII singleQuoted optsAll emptyStream
           (quux (fakeClients ["b"] (runsFor "a" ["a-run-1"]) []))
           ["a"; "b"; "c"] tt) in
  length (errs st) = 1
  /\ successfulTasks st = ["a"; "c"]
  /\ flat_map attemptedTask (calls st) = ["a"; "b"; "c"].
Proof.
  apply (@deleteTask_partial_failure
           unit quoteASCII singleQuoted optsAll emptyStream
           (quux (fakeClients ["b"] (runsFor "a" ["a-run-1"]) []))
           (fakeClients ["b"] (runsFor "a" ["a-run-1"]) [])
           ["a"; "b"; "c"] tt (fun name => inNames name ["b"])).
  - reflexivity.
  - intros name c' _. cbn [fst Tasks_Delete fakeClients quux Namespace].
    destruct (inNames name ["b"]); split; intros H.
    + reflexivity.
    + discriminate.
    + exfalso. apply H. reflexivity.
    + discriminate H.
  - intros _ arg lOpts c'. split.
    + cbn [fst TaskRuns_List fakeClients quux Namespace]. unfold runsFor.
      destruct (String.eqb (LabelSelector lOpts) ("tekton.dev/task=" ++ "a"));
        eexists; reflexivity.
    + reflexivity.
Defined.

(** A run with one failure returns an error; its log has a failed call. *)
Lemma combined_error_nil_iff_witness :
  let res :=
    deleteTask quoteASCII singleQuoted optsPlain emptyStream
      (quux (fakeClients ["a"] noRuns [])) ["a"; "b"] tt in
  (fst res = None <-> forallb succeeded (calls (snd res)) = true)
  /\ (fst res <> None <-> errs (snd res) <> []).
Proof.
  apply (@combined_error_nil_iff
           unit quoteASCII singleQuoted optsPlain emptyStream
           (quux (fakeClients ["a"] noRuns []))
           (fakeClients ["a"] noRuns []) ["a"; "b"] tt).
  reflexivity.
Defined.

(** A run with [--all] over a missing Task and a Task with two TaskRuns. *)
Lemma dependents_only_after_successful_delete_witness :
  let p := quux (fakeClients ["a"] (runsFor "b" ["b-run-1"; "b-run-2"]) []) in
  let st :=
    snd (deleteTask quoteASCII singleQuoted optsAll emptyStream p
           ["a"; "b"] tt) in
  (exists rounds,
      calls st = concat rounds
      /\ Forall2
           (fun tName round =>
              taskRound (Namespace p) (DeleteAll optsAll) tName round
              /\ (existsb dependentCall round = true ->
                  DeleteAll optsAll = true
                  /\ exists rest,
                      round = TasksDelete (Namespace p) tName None :: rest))
           ["a"; "b"] rounds)
  /\ (forall ns tName,
         In (TasksDelete ns tName None) (calls st) ->
         In tName (successfulTasks st)).
Proof.
  apply (@dependents_only_after_successful_delete
           unit quoteASCII singleQuoted optsAll emptyStream
           (quux (fakeClients ["a"] (runsFor "b" ["b-run-1"; "b-run-2"]) []))
           (fakeClients ["a"] (runsFor "b" ["b-run-1"; "b-run-2"]) [])
           ["a"; "b"] tt).
  reflexivity.
Defined.

(** Without [--all] the TaskRuns of a deleted Task are left alone. *)
Lemma no_cascade_no_list_witness :
  let st :=
    snd (deleteTask quoteASCII singleQuoted optsPlain emptyStream
           (quux (fakeClients [] (runsFor "a" ["a-run-1"]) []))
           ["a"; "b"] tt) in
  (forall ns lOpts res, ~ In (TaskRunsList ns lOpts res) (calls st))
  /\ (forall ns name res, ~ In (TaskRunsDelete ns name res) (calls st)).
Proof.
  apply (@no_cascade_no_list
           unit quoteASCII singleQuoted optsPlain emptyStream
           (quux (fakeClients [] (runsFor "a" ["a-run-1"]) []))
           ["a"; "b"] tt).
  reflexivity.
Defined.

(** The Task [foo] is deleted and the list of its TaskRuns is refused. *)
Lemma list_failure_recorded_as_is_witness :
  let st :=
    snd (deleteTask quoteASCII singleQuoted optsAll emptyStream
           (quux (fakeClients [] listForbidden [])) ["foo"] tt) in
  In "foo" (successfulTasks st)
  /\ errs st = [Errorf "taskruns.tekton.dev is forbidden"].
Proof.
  apply (@list_failure_recorded_as_is
           unit quoteASCII singleQuoted optsAll emptyStream
           (quux (fakeClients [] listForbidden [])) ["foo"] tt
           [] [] "quux" "foo" (mkListOptions "tekton.dev/task=foo")
           (Errorf "taskruns.tekton.dev is forbidden")).
  reflexivity.
Defined.

(** In that run no failure entry names [foo]: the one entry recorded is the
    error of the list call, which says nothing of the Task. *)
Lemma list_failure_not_attributed :
  let st :=
    snd (deleteTask quoteASCII singleQuoted optsAll emptyStream
           (quux (fakeClients [] listForbidden [])) ["foo"] tt) in
  calls st
  = [TasksDelete "quux" "foo" None;
     TaskRunsList "quux" (mkListOptions "tekton.dev/task=foo")
                  (inr (Errorf "taskruns.tekton.dev is forbidden"))]
  /\ ~ (exists err, In err (errs st) /\ attributedTo "foo" err = true).
Proof.
  split; [reflexivity|].
  intros [err [Hin Hatt]].
  destruct Hin as [<-|[]]. vm_compute in Hatt. discriminate Hatt.
Qed.

(** In that run the line written to [s.Err] is not of the form
    [failed to delete <kind> %q: <underlying error>]. *)
Lemma list_failure_line_has_other_form :
  let st :=
    snd (deleteTask quoteASCII singleQuoted optsAll emptyStream
           (quux (fakeClients [] listForbidden [])) ["foo"] tt) in
  ~ Forall (deleteFailureLine quoteASCII) (Err (stream st)).
Proof.
  intros st H.
  assert (Hline : deleteFailureLine quoteASCII
                    ("taskruns.tekton.dev is forbidden" ++ newline)).
  { inversion H as [|line rest Hl _ Heq]. exact Hl. }
  destruct Hline as (kind & name & cause & Heq).
  simpl in Heq. discriminate Heq.
Qed.

(** No configuration: the command stops before any call. *)
Lemma clients_failure_aborts_witness :
  let res :=
    deleteTask quoteASCII singleQuoted optsAll emptyStream noClients
               ["a"; "b"] tt in
  fst res <> None
  /\ calls (snd res) = []
  /\ cluster (snd res) = tt
  /\ errs (snd res) = []
  /\ successfulTasks (snd res) = []
  /\ successfulTaskRuns (snd res) = []
  /\ stream (snd res) = emptyStream.
Proof.
  apply (@clients_failure_aborts
           unit quoteASCII singleQuoted optsAll emptyStream noClients
           ["a"; "b"] tt
           (Errorf "invalid configuration: no configuration has been provided")).
  reflexivity.
Defined.

Lemma clients_failure_message_witness :
  fst (deleteTask quoteASCII singleQuoted optsAll emptyStream noClients
                  ["a"] tt)
  = Some (Errorf "failed to create tekton client")
  /\ stream (snd (deleteTask quoteASCII singleQuoted optsAll emptyStream
                             noClients ["a"] tt)) = emptyStream
  /\ fst (deleteTriggerTemplates quoteASCII singleQuoted emptyStream noClients
                                 ["a"] tt)
     = Some (Errorf "failed to create tekton client")
  /\ tt_stream (snd (deleteTriggerTemplates quoteASCII singleQuoted
                                            emptyStream noClients ["a"] tt))
     = emptyStream.
Proof.
  apply (@clients_failure_message
           unit quoteASCII singleQuoted optsAll emptyStream noClients ["a"] tt
           (Errorf "invalid configuration: no configuration has been provided")).
  reflexivity.
Defined.

Lemma empty_batch_witness :
  deleteTask quoteASCII singleQuoted optsAll emptyStream
             (quux (fakeClients [] noRuns [])) [] tt
  = (None, mkState tt emptyStream [] [] [] []).
Proof.
  apply (@empty_batch unit quoteASCII singleQuoted optsAll emptyStream
                      (quux (fakeClients [] noRuns []))
                      (fakeClients [] noRuns []) tt).
  reflexivity.
Defined.

(** *** The scenarios of the specification *)

(** Names [a] and [b], no cascade, both deletes succeed. *)
Example scenario_A :
  let res :=
    deleteTask quoteASCII singleQuoted optsPlain emptyStream
               (quux (fakeClients [] noRuns [])) ["a"; "b"] tt in
  fst res = None
  /\ Out (stream (snd res)) = ["Tasks deleted: 'a', 'b'" ++ newline]
  /\ Err (stream (snd res)) = [].
Proof. repeat split. Qed.

(** Names [a] and [b], the delete of [a] fails with not found. *)
Example scenario_B :
  let res :=
    deleteTask quoteASCII singleQuoted optsPlain emptyStream
               (quux (fakeClients ["a"] noRuns [])) ["a"; "b"] tt in
  fst res
  = Some (Errorf ("failed to delete task " ++ quoteASCII "a" ++ ": "
                  ++ Error (notFound "tasks.tekton.dev" "a")))
  /\ Out (stream (snd res)) = ["Tasks deleted: 'b'" ++ newline]
  /\ length (Err (stream (snd res))) = 1.
Proof. repeat split. Qed.

(** Name [a] with cascade, two TaskRuns, every delete succeeds. *)
Example scenario_C :
  let res :=
    deleteTask quoteASCII singleQuoted optsAll emptyStream
               (quux (fakeClients [] (runsFor "a" ["a-run-1"; "a-run-2"]) []))
               ["a"] tt in
  fst res = None
  /\ Out (stream (snd res))
     = ["TaskRuns deleted: 'a-run-1', 'a-run-2'" ++ newline;
        "Tasks deleted: 'a'" ++ newline].
Proof. repeat split. Qed.

(** A name of plain characters is quoted by [%q] with double quotes only. *)
Example quoteASCII_plain :
  quoteASCII "foo-1" = dquote ++ "foo-1" ++ dquote.
Proof. reflexivity. Qed.

(** ** Further properties of [deleteTask] *)

Section Rounds.

Local Open Scope list_scope.

Lemma Forall2_in_right (A B : Type) (R : A -> B -> Prop)
      (l : list A) (l' : list B) :
  Forall2 R l l' -> forall y, In y l' -> exists x, In x l /\ R x y.
Proof.
  induction 1 as [|x y l l' Hxy _ IH]; intros z Hin; simpl in Hin.
  - destruct Hin.
  - destruct Hin as [<-|Hin].
    + exists x. split; [left; reflexivity | exact Hxy].
    + destruct (IH z Hin) as [x' [Hx' Hr]].
      exists x'. split; [right; exact Hx' | exact Hr].
Qed.

(** The deletes of the inner loop are deletes of TaskRuns in [ns] and
    nothing else. *)
Lemma dels_facts (ns : string) (items : list TaskRun) (dels : list Event) :
  Forall2 (fun tr ev => exists res, ev = TaskRunsDelete ns (Name tr) res)
          items dels ->
  flat_map attemptedTask dels = []
  /\ flat_map deletedTask dels = []
  /\ filter listCall dels = []
  /\ filter failedTaskDelete dels = []
  /\ Forall (fun ev => eventNamespace ev = ns) dels
  /\ length dels = length items.
Proof.
  induction 1 as [|tr ev items dels [res ->] _ IH]; simpl.
  - repeat split. constructor.
  - destruct IH as (A & D & L & F & N & Len).
    rewrite A, D, L, F, Len. repeat split. constructor; [reflexivity | exact N].
Qed.

(** What one round holds: the one attempt on its Task, calls in [ns] only,
    the Task either deleted or failed, one list per deleted Task under
    [DeleteAll], and the delete alone without it. *)
Lemma round_facts (ns : string) (deleteAll : bool) (tName : string)
      (round : list Event) :
  taskRound ns deleteAll tName round ->
  flat_map attemptedTask round = [tName]
  /\ Forall (fun ev => eventNamespace ev = ns) round
  /\ length (flat_map deletedTask round)
     + length (filter failedTaskDelete round) = 1
  /\ incl (flat_map deletedTask round) [tName]
  /\ (deleteAll = true ->
      length (filter listCall round) = length (flat_map deletedTask round))
  /\ (deleteAll = false -> length round = 1).
Proof.
  intros [err | Hall | err Hall | taskRuns dels Hall Hdels]; simpl.
  - repeat split; try (intros; reflexivity).
    + repeat constructor.
    + intros x [].
  - repeat split; try (intros; reflexivity).
    + repeat constructor.
    + apply incl_refl.
    + intros H. rewrite H in Hall. discriminate Hall.
  - repeat split; try (intros; reflexivity).
    + repeat constructor.
    + apply incl_refl.
    + intros H. rewrite H in Hall. discriminate Hall.
  - destruct (dels_facts Hdels) as (A & D & L & F & N & _).
    rewrite A, D, L, F. repeat split; try (intros; reflexivity).
    + repeat constructor. exact N.
    + apply incl_refl.
    + intros H. rewrite H in Hall. discriminate Hall.
Qed.

Lemma rounds_facts (ns : string) (deleteAll : bool) (tNames : list string)
      (rounds : list (list Event)) :
  Forall2 (taskRound ns deleteAll) tNames rounds ->
  flat_map attemptedTask (concat rounds) = tNames
  /\ Forall (fun ev => eventNamespace ev = ns) (concat rounds)
  /\ length (flat_map deletedTask (concat rounds))
     + length (filter failedTaskDelete (concat rounds)) = length tNames
  /\ incl (flat_map deletedTask (concat rounds)) tNames
  /\ (deleteAll = true ->
      length (filter listCall (concat rounds))
      = length (flat_map deletedTask (concat rounds)))
  /\ (deleteAll = false -> length (concat rounds) = length tNames).
Proof.
  induction 1 as [|tName round tNames rounds Hr _ IH]; simpl.
  - repeat split; try (intros; reflexivity).
    + constructor.
    + intros x [].
  - destruct (round_facts Hr) as (A1 & N1 & P1 & I1 & L1 & S1).
    destruct IH as (A & N & P & I & L & S).
    rewrite !flat_map_app, !filter_app, !length_app, A1, A.
    repeat split.
    + apply Forall_app. split; assumption.
    + lia.
    + apply incl_app.
      * intros x Hx. destruct (I1 x Hx) as [<-|[]]. left. reflexivity.
      * intros x Hx. right. apply (I x Hx).
    + intros Hall. rewrite (L1 Hall), (L Hall). reflexivity.
    + intros Hall. rewrite (S1 Hall), (S Hall). reflexivity.
Qed.

Lemma no_dependent_no_taskRun (evs : list Event) :
  existsb dependentCall evs = false -> flat_map deletedTaskRun evs = [].
Proof.
  induction evs as [|ev evs IH]; simpl; [reflexivity|].
  intros H. apply orb_false_elim in H. destruct H as [Hev Hevs].
  rewrite (IH Hevs).
  destruct ev as [ns n res | ns lo res | ns n res | ns n res];
    simpl in Hev; try discriminate Hev; reflexivity.
Qed.

Lemma filter_none (A : Type) (l : list A) : filter (fun _ => false) l = [].
Proof. induction l; simpl; auto. Qed.

Lemma filter_all (A : Type) (l : list A) : filter (fun _ => true) l = l.
Proof. induction l; simpl; congruence. Qed.

End Rounds.

Section TaskProperties.

Variable Cluster : Type.
Variables Sprintf_q quoteName : string -> string.

Local Open Scope list_scope.

Local Abbreviation deleteTask := (@deleteTask Cluster Sprintf_q quoteName).

(** X1.  Whatever fails in a run, a Task delete, a list or a TaskRun
    delete, every name of [tNames] gets its Task delete, once and in the
    order given; names given twice are tried twice. *)
Theorem deleteTask_attempts_every_name
        (opts : DeleteOptions) (s : Stream) (p : Params Cluster)
        (cs : Clients Cluster) (tNames : list string) (c : Cluster) :
  GetClients p = inl cs ->
  flat_map attemptedTask (calls (snd (deleteTask opts s p tNames c)))
  = tNames.
Proof.
  intros Hcs.
  destruct (deleteTask_run Sprintf_q quoteName opts s p tNames c Hcs)
    as (rounds & Hr & C & _).
  cbv zeta in C. rewrite C.
  apply (rounds_facts Hr).
Qed.

(** X2.  Every call of a run is made in the namespace [p.Namespace()]. *)
Theorem deleteTask_stays_in_namespace
        (opts : DeleteOptions) (s : Stream) (p : Params Cluster)
        (tNames : list string) (c : Cluster) :
  Forall (fun ev => eventNamespace ev = Namespace p)
         (calls (snd (deleteTask opts s p tNames c))).
Proof.
  destruct (GetClients p) as [cs|cause] eqn:Hcs.
  - destruct (deleteTask_run Sprintf_q quoteName opts s p tNames c Hcs)
      as (rounds & Hr & C & _).
    cbv zeta in C. rewrite C.
    apply (rounds_facts Hr).
  - rewrite (deleteTask_without_clients
               Sprintf_q quoteName opts s p tNames c Hcs).
    constructor.
Qed.

(** X3.  A TaskRun delete is only made for an item of a list that came
    back for the label [tekton.dev/task=<name>] of a Task that was asked
    for and was itself deleted. *)
Theorem taskRun_deletes_come_from_lists
        (opts : DeleteOptions) (s : Stream) (p : Params Cluster)
        (tNames : list string) (c : Cluster)
        (ns name : string) (res : option error) :
  let st := snd (deleteTask opts s p tNames c) in
  In (TaskRunsDelete ns name res) (calls st) ->
  exists tName taskRuns,
    In tName tNames
    /\ In tName (successfulTasks st)
    /\ In (TaskRunsList (Namespace p)
                        (mkListOptions ("tekton.dev/task=" ++ tName))
                        (inl taskRuns))
          (calls st)
    /\ In name (map Name (Items taskRuns)).
Proof.
  cbv zeta. intros Hin.
  destruct (GetClients p) as [cs|cause] eqn:Hcs.
  - destruct (deleteTask_run Sprintf_q quoteName opts s p tNames c Hcs)
      as (rounds & Hr & C & _ & T & _).
    cbv zeta in C, T. rewrite T, C. rewrite C in Hin.
    apply in_concat in Hin. destruct Hin as (round & Hround & Hin).
    destruct (Forall2_in_right Hr round Hround) as (tName & HtName & Hshape).
    exists tName.
    destruct Hshape as [err | Hall | err Hall | taskRuns dels Hall Hdels].
    + destruct Hin as [Heq|[]]. discriminate Heq.
    + destruct Hin as [Heq|[]]. discriminate Heq.
    + destruct Hin as [Heq|[Heq|[]]]; discriminate Heq.
    + exists taskRuns. split; [exact HtName|]. split; [|split].
      * apply (@deleted_recorded _ (Namespace p)).
        apply in_concat. eexists. split; [exact Hround | left; reflexivity].
      * apply in_concat. eexists.
        split; [exact Hround | right; left; reflexivity].
      * destruct Hin as [Heq|[Heq|Hin]]; try discriminate Heq.
        clear - Hdels Hin.
        induction Hdels as [|tr ev items dels [res' ->] _ IH];
          simpl in *; [destruct Hin|].
        destruct Hin as [Heq|Hin].
        -- left. congruence.
        -- right. apply (IH Hin).
  - rewrite (deleteTask_without_clients
               Sprintf_q quoteName opts s p tNames c Hcs) in Hin.
    destruct Hin.
Qed.

(** X4.  With [DeleteAll], a run lists the TaskRuns once for each Task it
    deleted and not otherwise: it makes as many list calls as it records
    successful Tasks. *)
Theorem one_list_per_deleted_task
        (opts : DeleteOptions) (s : Stream) (p : Params Cluster)
        (tNames : list string) (c : Cluster) :
  DeleteAll opts = true ->
  let st := snd (deleteTask opts s p tNames c) in
  length (filter listCall (calls st)) = length (successfulTasks st).
Proof.
  intros Hall. cbv zeta.
  destruct (GetClients p) as [cs|cause] eqn:Hcs.
  - destruct (deleteTask_run Sprintf_q quoteName opts s p tNames c Hcs)
      as (rounds & Hr & C & _ & T & _).
    cbv zeta in C, T. rewrite T, C.
    apply (rounds_facts Hr). exact Hall.
  - rewrite (deleteTask_without_clients
               Sprintf_q quoteName opts s p tNames c Hcs).
    reflexivity.
Qed.

(** X5.  Without [DeleteAll] a run makes one call per name and no more:
    nothing is retried and nothing else is asked of the store. *)
Theorem no_cascade_one_call_per_name
        (opts : DeleteOptions) (s : Stream) (p : Params Cluster)
        (cs : Clients Cluster) (tNames : list string) (c : Cluster) :
  GetClients p = inl cs ->
  DeleteAll opts = false ->
  length (calls (snd (deleteTask opts s p tNames c))) = length tNames.
Proof.
  intros Hcs Hall.
  destruct (deleteTask_run Sprintf_q quoteName opts s p tNames c Hcs)
    as (rounds & Hr & C & _).
  cbv zeta in C. rewrite C.
  apply (rounds_facts Hr). exact Hall.
Qed.

(** X6.  Every name ends as a success or as a failed Task delete: the
    successful Tasks and the failed Task deletes together are as many as
    the names given, and no Task is recorded as deleted that was not asked
    for. *)
Theorem every_name_succeeds_or_fails
        (opts : DeleteOptions) (s : Stream) (p : Params Cluster)
        (cs : Clients Cluster) (tNames : list string) (c : Cluster) :
  GetClients p = inl cs ->
  let st := snd (deleteTask opts s p tNames c) in
  length (successfulTasks st) + length (filter failedTaskDelete (calls st))
  = length tNames
  /\ incl (successfulTasks st) tNames.
Proof.
  intros Hcs. cbv zeta.
  destruct (deleteTask_run Sprintf_q quoteName opts s p tNames c Hcs)
    as (rounds & Hr & C & _ & T & _).
  cbv zeta in C, T. rewrite T, C.
  destruct (rounds_facts Hr) as (_ & _ & P & I & _).
  split; assumption.
Qed.

(** X7.  The failure entries and the lines on [s.Err] go together: the run
    appends one line per entry of [errs], the message of the entry, and it
    returns nil exactly when it wrote nothing to [s.Err]. *)
Theorem nil_iff_nothing_on_Err
        (opts : DeleteOptions) (s : Stream) (p : Params Cluster)
        (cs : Clients Cluster) (tNames : list string) (c : Cluster) :
  GetClients p = inl cs ->
  let res := deleteTask opts s p tNames c in
  Err (stream (snd res)) = Err s ++ map errLine (errs (snd res))
  /\ (fst res = None <-> Err (stream (snd res)) = Err s).
Proof.
  intros Hcs. cbv zeta.
  destruct (deleteTask_run Sprintf_q quoteName opts s p tNames c Hcs)
    as (rounds & _ & _ & _ & _ & _ & L & _ & Hret).
  cbv zeta in L, Hret. split; [exact L|].
  rewrite Hret, L, Combine_nil_iff. split.
  - intros ->. simpl. apply app_nil_r.
  - intros H. rewrite <- (app_nil_r (Err s)) in H at 2.
    apply app_inv_head in H.
    destruct (errs _); [reflexivity | discriminate H].
Qed.

(** X8.  Without [DeleteAll] and with every Task delete succeeding, the run
    returns nil, records all of [tNames] in order as successful and no
    TaskRun, writes nothing to [s.Err], and writes to [s.Out] the one line
    of the Tasks, or nothing when no name was given. *)
Theorem deleteTask_all_succeed
        (opts : DeleteOptions) (s : Stream) (p : Params Cluster)
        (cs : Clients Cluster) (tNames : list string) (c : Cluster) :
  GetClients p = inl cs ->
  DeleteAll opts = false ->
  (forall (name : string) (c' : Cluster),
      In name tNames ->
      fst (Tasks_Delete cs (Namespace p) name c') = None) ->
  let res := deleteTask opts s p tNames c in
  fst res = None
  /\ successfulTasks (snd res) = tNames
  /\ successfulTaskRuns (snd res) = []
  /\ Err (stream (snd res)) = Err s
  /\ Out (stream (snd res)) = Out s ++ successLines quoteName [] tNames.
Proof.
  intros Hcs Hall Hok. cbv zeta.
  assert (Hsteps :
            errs (snd (deleteTask opts s p tNames c)) = []
            /\ successfulTasks (snd (deleteTask opts s p tNames c)) = tNames).
  { unfold deleteTask. rewrite Hcs. cbv zeta. simpl snd.
    match goal with
    | |- context [deleteTask_report quoteName ?st1] =>
        destruct (report_keeps quoteName st1) as (_ & _ & K3 & K4 & _)
    end.
    rewrite K3, K4.
    assert (Hdep :
              DeleteAll opts = true ->
              forall (arg : string) (lOpts : ListOptions) (c' : Cluster),
                (exists taskRuns,
                    fst (TaskRuns_List cs (Namespace p) lOpts c')
                    = inl taskRuns)
                /\ fst (TaskRuns_Delete cs (Namespace p) arg c') = None).
    { intros H. rewrite Hall in H. discriminate H. }
    destruct (@tasks_steps Cluster Sprintf_q opts cs (Namespace p)
                           (fun _ => false) Hdep tNames
                           (mkState c s [] [] [] []))
      as (E & T & _).
    { intros name c' Hin. rewrite (Hok name c' Hin).
      split; intros H; [exfalso; apply H; reflexivity | discriminate H]. }
    cbv zeta in E, T. simpl in E, T.
    rewrite filter_none in E. rewrite filter_all in T.
    split; [|exact T].
    apply length_zero_iff_nil. exact E. }
  destruct Hsteps as [E T].
  destruct (deleteTask_run Sprintf_q quoteName opts s p tNames c Hcs)
    as (rounds & Hr & C & _ & _ & R & L & O & Hret).
  cbv zeta in C, R, L, O, Hret.
  assert (HR : successfulTaskRuns (snd (deleteTask opts s p tNames c)) = []).
  { rewrite R, C. apply no_dependent_no_taskRun.
    rewrite Hall in Hr. apply (rounds_without_cascade Hr). }
  rewrite Hret, L, O, HR, T, E. simpl. rewrite app_nil_r.
  repeat split.
Qed.

End TaskProperties.

(** ** Properties of [deleteTriggerTemplates] *)

Section TriggerTemplateProperties.

Variable Cluster : Type.
Variables Sprintf_q quoteName : string -> string.

Local Open Scope list_scope.

Local Abbreviation TTState := (TTState Cluster).
Local Abbreviation tt_follows := (@tt_follows Cluster Sprintf_q).
Local Abbreviation recorded := (recorded Sprintf_q).
Local Abbreviation deleteTriggerTemplates_one :=
  (@deleteTriggerTemplates_one Cluster Sprintf_q).
Local Abbreviation deleteTriggerTemplates :=
  (@deleteTriggerTemplates Cluster Sprintf_q quoteName).

Lemma tt_one_follows (cs : Clients Cluster) (ns : string) (st : TTState)
      (ttName : string) :
  tt_follows st (deleteTriggerTemplates_one cs ns st ttName)
             [TriggerTemplatesDelete ns ttName
                (fst (TriggerTemplates_Delete cs ns ttName (tt_cluster st)))].
Proof.
  unfold deleteTriggerTemplates_one, tt_follows.
  destruct (TriggerTemplates_Delete cs ns ttName (tt_cluster st))
    as [[err|] c']; simpl; rewrite ?app_nil_r; repeat split.
Qed.

Lemma tt_follows_trans (st1 st2 st3 : TTState) (evs1 evs2 : list Event) :
  tt_follows st1 st2 evs1 -> tt_follows st2 st3 evs2 ->
  tt_follows st1 st3 (evs1 ++ evs2).
Proof.
  intros (C1 & E1 & S1 & O1 & L1) (C2 & E2 & S2 & O2 & L2).
  unfold tt_follows.
  rewrite ?flat_map_app, ?map_app, ?app_assoc.
  repeat split; congruence.
Qed.

Lemma tt_loop_follows (cs : Clients Cluster) (ns : string)
      (ttNames : list string) :
  forall st : TTState,
  exists results,
    length results = length ttNames
    /\ tt_follows st
                  (fold_left (deleteTriggerTemplates_one cs ns) ttNames st)
                  (triggerTemplateDeletes ns ttNames results).
Proof.
  induction ttNames as [|ttName ttNames IH]; intros st; simpl.
  - exists []. split; [reflexivity|].
    unfold tt_follows. simpl. rewrite ?app_nil_r. repeat split.
  - destruct (IH (deleteTriggerTemplates_one cs ns st ttName))
      as (results & Hlen & Hf).
    eexists (_ :: results). split; [simpl; rewrite Hlen; reflexivity|].
    apply (tt_follows_trans (tt_one_follows cs ns st ttName) Hf).
Qed.

Lemma tt_without_clients (s : Stream) (p : Params Cluster)
      (ttNames : list string) (c : Cluster) (cause : error) :
  GetClients p = inr cause ->
  deleteTriggerTemplates s p ttNames c
  = (Some (Errorf "failed to create tekton client"), mkTTState c s [] [] []).
Proof.
  intros H. unfold deleteTriggerTemplates. rewrite H. reflexivity.
Qed.

Lemma tt_report_keeps (st1 : TTState) :
  let st2 :=
    if (0 <? length (tt_success st1))%nat
    then mkTTState (tt_cluster st1)
                   (mkStream
                      (Out (tt_stream st1)
                       ++ [("TriggerTemplates deleted: "
                            ++ QuotedList quoteName (tt_success st1)
                            ++ newline)%string])
                      (Err (tt_stream st1)))
                   (tt_calls st1) (tt_errs st1) (tt_success st1)
    else st1 in
  tt_cluster st2 = tt_cluster st1
  /\ tt_calls st2 = tt_calls st1
  /\ tt_errs st2 = tt_errs st1
  /\ tt_success st2 = tt_success st1
  /\ Err (tt_stream st2) = Err (tt_stream st1)
  /\ Out (tt_stream st2)
     = Out (tt_stream st1) ++ triggerTemplatesLine quoteName (tt_success st1).
Proof.
  destruct st1 as [c s log es success].
  destruct success; simpl; rewrite ?app_nil_r; repeat split.
Qed.

Lemma tt_run (s : Stream) (p : Params Cluster) (cs : Clients Cluster)
      (ttNames : list string) (c : Cluster) :
  GetClients p = inl cs ->
  exists results,
    let res := deleteTriggerTemplates s p ttNames c in
    let st := snd res in
    length results = length ttNames
    /\ tt_calls st = triggerTemplateDeletes (Namespace p) ttNames results
    /\ tt_errs st = flat_map recorded (tt_calls st)
    /\ tt_success st = flat_map deletedTriggerTemplate (tt_calls st)
    /\ Err (tt_stream st) = Err s ++ map errLine (tt_errs st)
    /\ Out (tt_stream st)
       = Out s ++ triggerTemplatesLine quoteName (tt_success st)
    /\ tt_cluster st
       = tt_cluster (fold_left (deleteTriggerTemplates_one cs (Namespace p))
                               ttNames (mkTTState c s [] [] []))
    /\ fst res = Combine (tt_errs st).
Proof.
  intros Hcs. unfold deleteTriggerTemplates. rewrite Hcs.
  destruct (tt_loop_follows cs (Namespace p) ttNames (mkTTState c s [] [] []))
    as (results & Hlen & C & E & S & O & L).
  exists results. cbv zeta. cbn [fst snd].
  match goal with
  | |- context [if _ then _ else ?st1] =>
      destruct (tt_report_keeps st1) as (K1 & K2 & K3 & K4 & K5 & K6)
  end.
  cbv zeta in K1, K2, K3, K4, K5, K6.
  simpl in C, E, S, O, L.
  rewrite K1, K2, K3, K4, K5, K6, C, E, S, O, L.
  repeat split; assumption.
Qed.

Lemma string_append_assoc (a b c : string) :
  ((a ++ b) ++ c = a ++ (b ++ c))%string.
Proof.
  induction a as [|ch a IH]; simpl; [reflexivity | rewrite IH; reflexivity].
Qed.

(** What a list of TriggerTemplate deletes records: each delete leaves a
    success or a failure entry; with no failure entry all names are
    successes; and each failure entry gives a line of the one form. *)
Lemma tt_deletes_facts (ns : string) (ttNames : list string) :
  forall results : list (option error),
    length results = length ttNames ->
    let evs := triggerTemplateDeletes ns ttNames results in
    length (flat_map deletedTriggerTemplate evs)
    + length (flat_map recorded evs) = length ttNames
    /\ (flat_map recorded evs = [] ->
        flat_map deletedTriggerTemplate evs = ttNames)
    /\ Forall (deleteFailureLine Sprintf_q)
              (map errLine (flat_map recorded evs))
    /\ Forall (fun ev => eventNamespace ev = ns) evs.
Proof.
  unfold triggerTemplateDeletes.
  induction ttNames as [|ttName ttNames IH]; intros [|res results] Hlen;
    simpl in Hlen; try discriminate Hlen; cbv zeta.
  - simpl. repeat split; constructor.
  - injection Hlen as Hlen.
    destruct (IH results Hlen) as (P & A & F & N). cbv zeta in *.
    simpl. rewrite !length_app, map_app.
    destruct res as [err|]; simpl; repeat split.
    + lia.
    + intros H. discriminate H.
    + constructor; [|exact F].
      exists "triggertemplate", ttName, (Error err).
      unfold errLine. simpl. rewrite !string_append_assoc. reflexivity.
    + constructor; [reflexivity | exact N].
    + lia.
    + intros H. rewrite (A H). reflexivity.
    + exact F.
    + constructor; [reflexivity | exact N].
Qed.

Lemma tt_steps (cs : Clients Cluster) (ns : string) (fails : string -> bool)
      (ttNames : list string) :
  forall st : TTState,
    (forall (name : string) (c : Cluster),
        In name ttNames ->
        fst (TriggerTemplates_Delete cs ns name c) <> None
        <-> fails name = true) ->
    let st' := fold_left (deleteTriggerTemplates_one cs ns) ttNames st in
    length (tt_errs st') = length (tt_errs st) + length (filter fails ttNames)
    /\ tt_success st'
       = tt_success st ++ filter (fun name => negb (fails name)) ttNames.
Proof.
  induction ttNames as [|ttName ttNames IH]; intros st Hdel; simpl fold_left.
  - simpl. rewrite app_nil_r, Nat.add_0_r. split; reflexivity.
  - destruct (IH (deleteTriggerTemplates_one cs ns st ttName)) as (E & S).
    { intros name c Hin. apply Hdel. right. exact Hin. }
    cbv zeta. rewrite E, S. clear E S IH.
    pose proof (Hdel ttName (tt_cluster st) (or_introl eq_refl)) as Hone.
    unfold deleteTriggerTemplates_one.
    destruct (TriggerTemplates_Delete cs ns ttName (tt_cluster st))
      as [[err|] c']; simpl in Hone; simpl.
    + assert (Hf : fails ttName = true) by (apply Hone; discriminate).
      rewrite Hf. simpl. rewrite length_app. simpl. split; [lia | reflexivity].
    + assert (Hf : fails ttName = false).
      { destruct (fails ttName); [|reflexivity].
        exfalso. apply (proj2 Hone); reflexivity. }
      rewrite Hf. simpl. rewrite <- app_assoc. split; reflexivity.
Qed.

(** X9.  With the client set obtained, [deleteTriggerTemplates] makes one
    TriggerTemplate delete per name, in the order given and in the
    namespace [p.Namespace()], and no other call, whichever of them fail. *)
Theorem deleteTriggerTemplates_attempts_every_name
        (s : Stream) (p : Params Cluster) (cs : Clients Cluster)
        (ttNames : list string) (c : Cluster) :
  GetClients p = inl cs ->
  exists results,
    length results = length ttNames
    /\ tt_calls (snd (deleteTriggerTemplates s p ttNames c))
       = triggerTemplateDeletes (Namespace p) ttNames results.
Proof.
  intros Hcs.
  destruct (tt_run s p ttNames c Hcs) as (results & Hlen & C & _).
  exists results. split; assumption.
Qed.

(** X10.  With the client set obtained, [deleteTriggerTemplates] returns
    nil exactly when [success] holds all the names given, in order; and
    each name ends in [success] or as one entry of [errs]. *)
Theorem deleteTriggerTemplates_nil_iff_all_deleted
        (s : Stream) (p : Params Cluster) (cs : Clients Cluster)
        (ttNames : list string) (c : Cluster) :
  GetClients p = inl cs ->
  let res := deleteTriggerTemplates s p ttNames c in
  (fst res = None <-> tt_success (snd res) = ttNames)
  /\ length (tt_success (snd res)) + length (tt_errs (snd res))
     = length ttNames.
Proof.
  intros Hcs. cbv zeta.
  destruct (tt_run s p ttNames c Hcs)
    as (results & Hlen & C & E & S & _ & _ & _ & Hret).
  cbv zeta in C, E, S, Hret.
  destruct (tt_deletes_facts (Namespace p) ttNames results Hlen)
    as (P & A & _).
  cbv zeta in P, A. rewrite <- C in P, A. rewrite <- E, <- S in P, A.
  split; [|exact P].
  rewrite Hret, Combine_nil_iff. split.
  - exact A.
  - intros H. rewrite H in P. apply length_zero_iff_nil. lia.
Qed.

(** X11.  [deleteTriggerTemplates] appends to [s.Out] the one line of the
    names it deleted, or nothing when it deleted none, and to [s.Err] one
    line per failure entry, each of the form
    [failed to delete <kind> %q: <underlying error>]. *)
Theorem deleteTriggerTemplates_report
        (s : Stream) (p : Params Cluster) (ttNames : list string)
        (c : Cluster) :
  let st := snd (deleteTriggerTemplates s p ttNames c) in
  Out (tt_stream st) = Out s ++ triggerTemplatesLine quoteName (tt_success st)
  /\ exists lines,
      Err (tt_stream st) = Err s ++ lines
      /\ length lines = length (tt_errs st)
      /\ Forall (deleteFailureLine Sprintf_q) lines.
Proof.
  cbv zeta. destruct (GetClients p) as [cs|cause] eqn:Hcs.
  - destruct (tt_run s p ttNames c Hcs)
      as (results & Hlen & C & E & _ & L & O & _).
    cbv zeta in C, E, L, O.
    destruct (tt_deletes_facts (Namespace p) ttNames results Hlen)
      as (_ & _ & F & _).
    cbv zeta in F. rewrite <- C, <- E in F.
    split; [exact O|].
    eexists. split; [exact L|]. split; [apply length_map | exact F].
  - rewrite (tt_without_clients s p ttNames c Hcs). simpl.
    split; [rewrite app_nil_r; reflexivity|].
    exists []. rewrite app_nil_r. repeat split. constructor.
Qed.

(** X12.  When the TriggerTemplate delete fails exactly for the names that
    [fails] marks, [errs] has one entry per marked name of [ttNames] and
    [success] is [ttNames] without the marked names, in the order given. *)
Theorem deleteTriggerTemplates_partial_failure
        (s : Stream) (p : Params Cluster) (cs : Clients Cluster)
        (ttNames : list string) (c : Cluster) (fails : string -> bool) :
  GetClients p = inl cs ->
  (forall (name : string) (c' : Cluster),
      In name ttNames ->
      fst (TriggerTemplates_Delete cs (Namespace p) name c') <> None
      <-> fails name = true) ->
  let st := snd (deleteTriggerTemplates s p ttNames c) in
  length (tt_errs st) = length (filter fails ttNames)
  /\ tt_success st = filter (fun name => negb (fails name)) ttNames.
Proof.
  intros Hcs Hdel. unfold deleteTriggerTemplates. rewrite Hcs.
  cbv zeta. cbn [fst snd].
  match goal with
  | |- context [if _ then _ else ?st1] =>
      destruct (tt_report_keeps st1) as (_ & _ & K3 & K4 & _)
  end.
  cbv zeta in K3, K4. rewrite K3, K4.
  apply (tt_steps cs (Namespace p) fails ttNames (mkTTState c s [] [] [])
                  Hdel).
Qed.

(** X13.  [deleteTriggerTemplates] is [deleteTask] without [DeleteAll] on
    the client set whose Task delete is the TriggerTemplate delete: the two
    leave the same cluster, record the same names as deleted and as many
    failures, and return nil together. *)
Theorem deleteTriggerTemplates_as_deleteTask
        (opts : DeleteOptions) (s : Stream) (ns : string)
        (cs : Clients Cluster) (names : list string) (c : Cluster) :
  DeleteAll opts = false ->
  let tt := deleteTriggerTemplates s (mkParams (inl cs) ns) names c in
  let t :=
    deleteTask Sprintf_q quoteName opts s
               (mkParams (inl (triggerTemplatesAsTasks cs)) ns) names c in
  tt_cluster (snd tt) = cluster (snd t)
  /\ tt_success (snd tt) = successfulTasks (snd t)
  /\ length (tt_errs (snd tt)) = length (errs (snd t))
  /\ (fst tt = None <-> fst t = None).
Proof.
  intros Hall. cbv zeta.
  assert (Hloop :
            forall (tst : TTState) (st : State Cluster),
              tt_cluster tst = cluster st ->
              tt_success tst = successfulTasks st ->
              length (tt_errs tst) = length (errs st) ->
              let tst' :=
                fold_left (deleteTriggerTemplates_one cs ns) names tst in
              let st' :=
                fold_left (deleteTask_task Sprintf_q opts
                                           (triggerTemplatesAsTasks cs) ns)
                          names st in
              tt_cluster tst' = cluster st'
              /\ tt_success tst' = successfulTasks st'
              /\ length (tt_errs tst') = length (errs st')).
  { induction names as [|name names' IH]; intros tst st Hc Hs He;
      simpl fold_left.
    - repeat split; assumption.
    - apply IH;
        unfold deleteTriggerTemplates_one, deleteTask_task, call_Tasks_Delete;
        simpl Tasks_Delete; rewrite Hall, <- Hc;
        destruct (TriggerTemplates_Delete cs ns name (tt_cluster tst))
          as [[err|] c']; simpl; rewrite ?length_app; simpl;
        congruence. }
  destruct (Hloop (mkTTState c s [] [] []) (mkState c s [] [] [] [])
                  eq_refl eq_refl eq_refl) as (Hc & Hs & He).
  cbv zeta in Hc, Hs, He.
  unfold deleteTriggerTemplates, deleteTask. simpl GetClients.
  cbv zeta. cbn [fst snd Namespace].
  match goal with
  | |- context [if _ then _ else ?st1] =>
      destruct (tt_report_keeps st1) as (K1 & _ & K3 & K4 & _)
  end.
  cbv zeta in K1, K3, K4. rewrite K1, K3, K4. clear K1 K3 K4.
  match goal with
  | |- context [deleteTask_report quoteName ?st1] =>
      destruct (report_keeps quoteName st1) as (J1 & _ & J3 & J4 & _)
  end.
  cbv zeta in J1, J3, J4. rewrite J1, J3, J4.
  split; [exact Hc|]. split; [exact Hs|]. split; [exact He|].
  rewrite !Combine_nil_iff. split; intros H; apply length_zero_iff_nil.
  - rewrite <- He, H. reflexivity.
  - rewrite He, H. reflexivity.
Qed.

End TriggerTemplateProperties.

(** ** Properties of the two commands *)

Section CommandProperties.

Variable Cluster : Type.
Variables Sprintf_q quoteName : string -> string.
Variable NamespaceExists : Params Cluster -> Cluster -> option error * Cluster.
Variable CheckOptions :
  DeleteOptions -> Stream -> list string -> option error * Stream.

Local Open Scope list_scope.

Local Abbreviation task_RunE :=
  (@task_RunE Cluster Sprintf_q quoteName NamespaceExists CheckOptions).
Local Abbreviation triggertemplate_RunE :=
  (@triggertemplate_RunE Cluster Sprintf_q quoteName
                         NamespaceExists CheckOptions).

(** X14.  [tkn task delete] calls the store for a delete or a list only
    after the namespace check and the confirmation both passed; the error
    of a check that fails is returned as it is, a failed namespace check
    leaving the stream untouched; and when both pass, the success lines
    follow what the confirmation wrote to [s.Out]. *)
Theorem task_RunE_gate (force all : bool) (p : Params Cluster)
        (args : list string) (s : Stream) (c : Cluster) :
  let opts := mkDeleteOptions "task" force all in
  let checked := NamespaceExists p c in
  let asked := CheckOptions opts s args in
  let res := task_RunE force all p args s c in
  (calls (snd res) <> [] -> fst checked = None /\ fst asked = None)
  /\ (forall err, fst checked = Some err ->
                  fst res = Some err /\ stream (snd res) = s)
  /\ (forall err, fst checked = None -> fst asked = Some err ->
                  fst res = Some err)
  /\ (fst checked = None -> fst asked = None ->
      Out (stream (snd res))
      = Out (snd asked)
        ++ successLines quoteName (successfulTaskRuns (snd res))
                        (successfulTasks (snd res))).
Proof.
  cbv zeta. unfold task_RunE.
  destruct (NamespaceExists p c) as [[err1|] c1];
    [|destruct (CheckOptions (mkDeleteOptions "task" force all) s args)
        as [[err2|] s1]]; simpl fst; simpl snd.
  - split; [|split; [|split]].
    + intros H. exfalso. apply H. reflexivity.
    + intros err H. split; [exact H | reflexivity].
    + intros err H. discriminate H.
    + intros H. discriminate H.
  - split; [|split; [|split]].
    + intros H. exfalso. apply H. reflexivity.
    + intros err H. discriminate H.
    + intros err _ H. exact H.
    + intros _ H. discriminate H.
  - split; [|split; [|split]].
    1: intros _; split; reflexivity.
    1: intros err H; discriminate H.
    1: intros err _ H; discriminate H.
    intros _ _.
    destruct (GetClients p) as [cs|cause] eqn:Hcs.
    + destruct (deleteTask_run Sprintf_q quoteName
                               (mkDeleteOptions "task" force all)
                               s1 p args c1 Hcs)
        as (rounds & _ & _ & _ & _ & _ & _ & O & _).
      exact O.
    + rewrite (deleteTask_without_clients
                 Sprintf_q quoteName (mkDeleteOptions "task" force all)
                 s1 p args c1 Hcs).
      simpl. rewrite app_nil_r. reflexivity.
Qed.

(** X15.  [tkn triggertemplate delete] calls the store for a delete only
    after the namespace check and the confirmation both passed, the
    confirmation being asked for the resource [triggertemplate] without
    [DeleteAll]; the error of a check that fails is returned as it is. *)
Theorem triggertemplate_RunE_gate (force : bool) (p : Params Cluster)
        (args : list string) (s : Stream) (c : Cluster) :
  let opts := mkDeleteOptions "triggertemplate" force false in
  let checked := NamespaceExists p c in
  let asked := CheckOptions opts s args in
  let res := triggertemplate_RunE force p args s c in
  (tt_calls (snd res) <> [] -> fst checked = None /\ fst asked = None)
  /\ (forall err, fst checked = Some err ->
                  fst res = Some err /\ tt_stream (snd res) = s)
  /\ (forall err, fst checked = None -> fst asked = Some err ->
                  fst res = Some err)
  /\ (fst checked = None -> fst asked = None ->
      Out (tt_stream (snd res))
      = Out (snd asked)
        ++ triggerTemplatesLine quoteName (tt_success (snd res))).
Proof.
  cbv zeta. unfold triggertemplate_RunE.
  destruct (NamespaceExists p c) as [[err1|] c1];
    [|destruct (CheckOptions (mkDeleteOptions "triggertemplate" force false)
                             s args) as [[err2|] s1]];
    simpl fst; simpl snd.
  - split; [|split; [|split]].
    + intros H. exfalso. apply H. reflexivity.
    + intros err H. split; [exact H | reflexivity].
    + intros err H. discriminate H.
    + intros H. discriminate H.
  - split; [|split; [|split]].
    + intros H. exfalso. apply H. reflexivity.
    + intros err H. discriminate H.
    + intros err _ H. exact H.
    + intros _ H. discriminate H.
  - split; [|split; [|split]].
    1: intros _; split; reflexivity.
    1: intros err H; discriminate H.
    1: intros err _ H; discriminate H.
    intros _ _.
    destruct (GetClients p) as [cs|cause] eqn:Hcs.
    + destruct (tt_run Sprintf_q quoteName s1 p args c1 Hcs)
        as (results & _ & _ & _ & _ & _ & O & _).
      exact O.
    + rewrite (tt_without_clients Sprintf_q quoteName s1 p args c1 Hcs).
      simpl. rewrite app_nil_r. reflexivity.
Qed.

End CommandProperties.

(** ** The further properties on concrete stores *)

(** A missing Task, then a Task whose second TaskRun cannot be deleted, then
    a third Task: all three are tried. *)
Lemma deleteTask_attempts_every_name_witness :
  flat_map attemptedTask
           (calls (snd (deleteTask quoteASCII singleQuoted optsAll emptyStream
                          (quux (fakeClients ["a"]
                                   (runsFor "b" ["b-run-1"; "b-run-2"])
                                   ["b-run-2"]))
                          ["a"; "b"; "c"] tt)))
  = ["a"; "b"; "c"].
Proof.
  apply (@deleteTask_attempts_every_name
           unit quoteASCII singleQuoted optsAll emptyStream
           (quux (fakeClients ["a"] (runsFor "b" ["b-run-1"; "b-run-2"])
                              ["b-run-2"]))
           (fakeClients ["a"] (runsFor "b" ["b-run-1"; "b-run-2"])
                        ["b-run-2"])
           ["a"; "b"; "c"] tt).
  reflexivity.
Defined.

Lemma taskRun_deletes_come_from_lists_witness :
  let p := quux (fakeClients [] (runsFor "b" ["b-run-1"; "b-run-2"]) []) in
  let st :=
    snd (deleteTask quoteASCII singleQuoted optsAll emptyStream p
                    ["a"; "b"] tt) in
  exists tName taskRuns,
    In tName ["a"; "b"]
    /\ In tName (successfulTasks st)
    /\ In (TaskRunsList (Namespace p)
                        (mkListOptions ("tekton.dev/task=" ++ tName))
                        (inl taskRuns))
          (calls st)
    /\ In "b-run-2" (map Name (Items taskRuns)).
Proof.
  apply (@taskRun_deletes_come_from_lists
           unit quoteASCII singleQuoted optsAll emptyStream
           (quux (fakeClients [] (runsFor "b" ["b-run-1"; "b-run-2"]) []))
           ["a"; "b"] tt "quux" "b-run-2" None).
  vm_compute. do 5 right. left. reflexivity.
Defined.

Lemma one_list_per_deleted_task_witness :
  let st :=
    snd (deleteTask quoteASCII singleQuoted optsAll emptyStream
                    (quux (fakeClients ["a"] (runsFor "b" ["b-run-1"]) []))
                    ["a"; "b"; "c"] tt) in
  length (filter listCall (calls st)) = length (successfulTasks st).
Proof.
  apply (@one_list_per_deleted_task
           unit quoteASCII singleQuoted optsAll emptyStream
           (quux (fakeClients ["a"] (runsFor "b" ["b-run-1"]) []))
           ["a"; "b"; "c"] tt).
  reflexivity.
Defined.

Lemma no_cascade_one_call_per_name_witness :
  length (calls (snd (deleteTask quoteASCII singleQuoted optsPlain emptyStream
                        (quux (fakeClients ["a"] (runsFor "b" ["b-run-1"]) []))
                        ["a"; "b"; "c"] tt)))
  = 3.
Proof.
  apply (@no_cascade_one_call_per_name
           unit quoteASCII singleQuoted optsPlain emptyStream
           (quux (fakeClients ["a"] (runsFor "b" ["b-run-1"]) []))
           (fakeClients ["a"] (runsFor "b" ["b-run-1"]) [])
           ["a"; "b"; "c"] tt);
    reflexivity.
Defined.

Lemma every_name_succeeds_or_fails_witness :
  let st :=
    snd (deleteTask quoteASCII singleQuoted optsAll emptyStream
                    (quux (fakeClients ["a"; "c"] listForbidden []))
                    ["a"; "b"; "c"] tt) in
  length (successfulTasks st) + length (filter failedTaskDelete (calls st))
  = 3
  /\ incl (successfulTasks st) ["a"; "b"; "c"].
Proof.
  apply (@every_name_succeeds_or_fails
           unit quoteASCII singleQuoted optsAll emptyStream
           (quux (fakeClients ["a"; "c"] listForbidden []))
           (fakeClients ["a"; "c"] listForbidden [])
           ["a"; "b"; "c"] tt).
  reflexivity.
Defined.

Lemma nil_iff_nothing_on_Err_witness :
  let res :=
    deleteTask quoteASCII singleQuoted optsAll emptyStream
               (quux (fakeClients ["a"] listForbidden [])) ["a"; "b"] tt in
  Err (stream (snd res))
  = (Err emptyStream ++ map errLine (errs (snd res)))%list
  /\ (fst res = None <-> Err (stream (snd res)) = Err emptyStream).
Proof.
  apply (@nil_iff_nothing_on_Err
           unit quoteASCII singleQuoted optsAll emptyStream
           (quux (fakeClients ["a"] listForbidden []))
           (fakeClients ["a"] listForbidden []) ["a"; "b"] tt).
  reflexivity.
Defined.

Lemma deleteTask_all_succeed_witness :
  let res :=
    deleteTask quoteASCII singleQuoted optsPlain emptyStream
               (quux (fakeClients [] (runsFor "a" ["a-run-1"]) []))
               ["a"; "b"] tt in
  fst res = None
  /\ successfulTasks (snd res) = ["a"; "b"]
  /\ successfulTaskRuns (snd res) = []
  /\ Err (stream (snd res)) = Err emptyStream
  /\ Out (stream (snd res))
     = (Out emptyStream ++ successLines singleQuoted [] ["a"; "b"])%list.
Proof.
  apply (@deleteTask_all_succeed
           unit quoteASCII singleQuoted optsPlain emptyStream
           (quux (fakeClients [] (runsFor "a" ["a-run-1"]) []))
           (fakeClients [] (runsFor "a" ["a-run-1"]) [])
           ["a"; "b"] tt).
  - reflexivity.
  - reflexivity.
  - intros name c' _. reflexivity.
Defined.

Lemma deleteTriggerTemplates_attempts_every_name_witness :
  exists results,
    length results = 3
    /\ tt_calls (snd (deleteTriggerTemplates quoteASCII singleQuoted
                        emptyStream (quux (fakeClients ["a"] noRuns []))
                        ["a"; "b"; "a"] tt))
       = triggerTemplateDeletes "quux" ["a"; "b"; "a"] results.
Proof.
  apply (@deleteTriggerTemplates_attempts_every_name
           unit quoteASCII singleQuoted emptyStream
           (quux (fakeClients ["a"] noRuns []))
           (fakeClients ["a"] noRuns []) ["a"; "b"; "a"] tt).
  reflexivity.
Defined.

Lemma deleteTriggerTemplates_nil_iff_all_deleted_witness :
  let res :=
    deleteTriggerTemplates quoteASCII singleQuoted emptyStream
                           (quux (fakeClients ["b"] noRuns []))
                           ["a"; "b"] tt in
  (fst res = None <-> tt_success (snd res) = ["a"; "b"])
  /\ length (tt_success (snd res)) + length (tt_errs (snd res)) = 2.
Proof.
  apply (@deleteTriggerTemplates_nil_iff_all_deleted
           unit quoteASCII singleQuoted emptyStream
           (quux (fakeClients ["b"] noRuns []))
           (fakeClients ["b"] noRuns []) ["a"; "b"] tt).
  reflexivity.
Defined.

Lemma deleteTriggerTemplates_partial_failure_witness :
  let st :=
    snd (deleteTriggerTemplates quoteASCII singleQuoted emptyStream
                                (quux (fakeClients ["b"] noRuns []))
                                ["a"; "b"; "c"] tt) in
  length (tt_errs st) = 1 /\ tt_success st = ["a"; "c"].
Proof.
  apply (@deleteTriggerTemplates_partial_failure
           unit quoteASCII singleQuoted emptyStream
           (quux (fakeClients ["b"] noRuns []))
           (fakeClients ["b"] noRuns [])
           ["a"; "b"; "c"] tt (fun name => inNames name ["b"])).
  - reflexivity.
  - intros name c' _.
    cbn [fst TriggerTemplates_Delete fakeClients quux Namespace].
    destruct (inNames name ["b"]); split; intros H.
    + reflexivity.
    + discriminate.
    + exfalso. apply H. reflexivity.
    + discriminate H.
Defined.

Lemma deleteTriggerTemplates_as_deleteTask_witness :
  let cs := fakeClients ["b"] noRuns [] in
  let tt' :=
    deleteTriggerTemplates quoteASCII singleQuoted emptyStream
                           (mkParams (inl cs) "quux") ["a"; "b"] tt in
  let t :=
    deleteTask quoteASCII singleQuoted optsPlain emptyStream
               (mkParams (inl (triggerTemplatesAsTasks cs)) "quux")
               ["a"; "b"] tt in
  tt_cluster (snd tt') = cluster (snd t)
  /\ tt_success (snd tt') = successfulTasks (snd t)
  /\ length (tt_errs (snd tt')) = length (errs (snd t))
  /\ (fst tt' = None <-> fst t = None).
Proof.
  apply (@deleteTriggerTemplates_as_deleteTask
           unit quoteASCII singleQuoted optsPlain emptyStream "quux"
           (fakeClients ["b"] noRuns []) ["a"; "b"] tt).
  reflexivity.
Defined.

(** A user who answers no: the prompt is on [s.Out], nothing was deleted,
    and the command returns the cancellation. *)
Example task_RunE_declined :
  let res :=
    task_RunE quoteASCII singleQuoted namespaceFound declined false true
              (quux (fakeClients [] noRuns [])) ["a"] emptyStream tt in
  fst res = Some (Errorf "canceled deleting task")
  /\ calls (snd res) = []
  /\ Out (stream (snd res)) = ["Are you sure you want to delete (y/n): "].
Proof. repeat split. Qed.

(** A namespace that is not there: nothing is asked and nothing deleted. *)
Example triggertemplate_RunE_no_namespace :
  let res :=
    triggertemplate_RunE quoteASCII singleQuoted namespaceMissing confirmed
                         true (quux (fakeClients [] noRuns [])) ["a"]
                         emptyStream tt in
  fst res = Some (notFound "namespaces" "quux")
  /\ tt_calls (snd res) = []
  /\ tt_stream (snd res) = emptyStream.
Proof. repeat split. Qed.
